(** * Detection-and-annotation pipeline of the gas-flare analyser (main.py)

    A shallow embedding of [process_with_yolo], [draw_predictions] and the
    [/process] endpoint [process_image], with the properties of the pipeline
    specification stated over it.

    Conventions of the embedding.
    - A Python [float] or a numpy float32 scalar that is finite is the
      rational [Q] it denotes.  What the code computes on them is rounded
      as IEEE 754 does, to the nearest number of the format, ties to even,
      an infinity beyond the range: the sums, differences and halves of
      float32 scalars in [process_with_yolo], and the product by 100 of the
      [%] presentation, made in double.  [float(v)] widens exactly and
      [int(v)] truncates toward zero.
    - Python exceptions are values of [exn]; a computation is a function
      from the [world] to an outcome and the world it leaves behind, so
      that the effects made before a [raise] persist.
    - [UPLOAD_DIR] and [RESULT_DIR] are two maps from file name to content.
    - ndarrays live in a heap of references: [image.copy()] allocates, the
      cv2 drawing calls write through the reference they are given.
    - What main.py imports (the YOLO model, cv2, uuid, time, os.path and
      the [str] of an exception) is not reimplemented: the model is a
      record holding its label table and its [predict] method, the rest is
      the record [platform].  Every call to [predict] and to cv2 is
      appended to the [trace] of the world.
    - [print] and [traceback.print_exc] only write to the console and are
      left out. *)

From Stdlib Require Import ZArith QArith Qabs Qpower List String Lia Lqa.
From stdpp Require Import base gmap strings list pretty.

Local Open Scope Z_scope.

(** ** Python values *)

Definition bytes := list Byte.byte.

(** [int(v)] on a float: truncation toward zero. *)
Definition py_int (v : Q) : Z := Z.quot (Qnum v) (Zpos (Qden v)).

(** Rounding to the nearest integer, ties to even, of a rational that is
    not negative: what the [f] presentation with precision 0 prints. *)
Definition round_half_even (v : Q) : Z :=
  let n := Qnum v in
  let d := Zpos (Qden v) in
  let f := n / d in
  let r := n mod d in
  if 2 * r <? d then f
  else if d <? 2 * r then f + 1
  else if Z.even f then f else f + 1.

(** A float that is not NaN: a finite one, or an infinity. *)
Inductive pyfloat : Type :=
| Finite (v : Q)
| Infinite (negative : bool).

(** The integer part of the binary logarithm of a rational above 0. *)
Definition ilog2 (a : Q) : Z :=
  let e := Z.log2 (Qnum a) - Z.log2 (Zpos (Qden a)) in
  if Qle_bool (2 ^ e) a then e else e - 1.

(** The spacing, around [a], of the binary floating-point numbers that
    have [prec] significant bits and least normal exponent [emin]. *)
Definition binary_quantum (prec emin : Z) (a : Q) : Q :=
  (2 ^ (Z.max (ilog2 a) emin - (prec - 1)))%Q.

(** Rounding to the nearest number of such a format, ties to even; what
    reaches 2^emax becomes an infinity. *)
Definition round_to_binary (prec emin emax : Z) (q : Q) : pyfloat :=
  let a := Qabs q in
  let u := binary_quantum prec emin a in
  let r := (inject_Z (round_half_even (a / u)) * u)%Q in
  if Qle_bool (2 ^ emax) r then Infinite (negb (Qle_bool 0 q))
  else Finite (Qred (if Qle_bool 0 q then r else - r)).

Definition round_to_float32 : Q -> pyfloat := round_to_binary 24 (-126) 128.
Definition round_to_float64 : Q -> pyfloat := round_to_binary 53 (-1022) 1024.

(** [a + b], [a - b] and [v / 2] on numpy float32 scalars. *)
Definition np_add (a b : Q) : pyfloat := round_to_float32 (a + b).
Definition np_sub (a b : Q) : pyfloat := round_to_float32 (a - b).
Definition np_half (v : pyfloat) : pyfloat :=
  match v with
  | Finite s => round_to_float32 (s / 2)
  | Infinite negative => Infinite negative
  end.

(** [f"{v:.0%}"]: the value times 100, a product made in double, in fixed
    point with no decimals, followed by a percent sign. *)
Definition format_percent0 (v : Q) : string :=
  (if Qle_bool 0 v then "" else "-")
  +:+ match round_to_float64 (Qabs v * 100) with
      | Finite p => pretty (round_half_even p)
      | Infinite _ => "inf"
      end
  +:+ "%".

(** [d.get(key, default)] *)
Definition dict_get `{Countable K} {V : Type}
    (d : gmap K V) (key : K) (dflt : V) : V :=
  match d !! key with
  | Some v => v
  | None => dflt
  end.

(** ** Exceptions *)

Inductive exn : Type :=
| ValueError (msg : string)
| HTTPException (status_code : Z) (detail : string)
| AttributeError (msg : string)
| TypeError (msg : string)
| Cv2Error (msg : string)
| InferenceError (msg : string).

Inductive result (A : Type) : Type :=
| Ok (a : A)
| Raise (e : exn).
Arguments Ok {A} a.
Arguments Raise {A} e.

(** ** Images *)

Definition color : Type := Z * Z * Z.
Definition point : Type := Z * Z.

(** An ndarray of shape (rows, columns, 3): its first two dimensions and
    the colour of every pixel. *)
Record ndarray : Type := mk_ndarray {
  shape : Z * Z;
  pixel : Z -> Z -> color
}.

Definition loc : Type := positive.

(** ** The detector *)

Record predict_args : Type := mk_predict_args {
  source : string;
  conf : Q;
  iou : Q;
  device : string;
  verbose : bool;
  save : bool
}.

(** One row of [results[0].boxes]. *)
Record Box : Type := mk_Box {
  box_xyxy : Q * Q * Q * Q;
  box_conf : Q;
  box_cls : Q
}.

Record Results : Type := mk_Results {
  boxes : option (list Box)
}.

(** [model.names] is a dict: its items in the order of the dict, no key
    twice. *)
Record YOLO : Type := mk_YOLO {
  names_items : list (Z * string);
  names_items_nodup : NoDup (names_items.*1);
  predict : gmap string bytes -> predict_args -> result (list Results)
}.

(** [model.names] as a mapping, for [model.names.get]. *)
Definition names (m : YOLO) : gmap Z string := list_to_map (names_items m).

(** [list(model.names.values())] *)
Definition names_values (m : YOLO) : list string := (names_items m).*2.

(** ** Calls that leave the program *)

Inductive event : Type :=
| EvFileRead (filename : string)
| EvOpenWrite (upload_name : string)
| EvImread (upload_name : string)
| EvPredict (a : predict_args)
| EvRectangle (img : loc) (pt1 pt2 : point) (c : color) (thickness : Z)
| EvPutText (img : loc) (text : string) (org : point) (font : Z)
    (font_scale : Q) (c : color) (thickness : Z)
| EvImwrite (result_name : string).

(** ** The world *)

Record world : Type := mk_world {
  uploads : gmap string bytes;
  results : gmap string bytes;
  heap : gmap loc ndarray;
  trace : list event;
  uuids : nat;
  ticks : nat
}.

Definition set_uploads (f : gmap string bytes -> gmap string bytes) (w : world) :=
  mk_world (f (uploads w)) (results w) (heap w) (trace w) (uuids w) (ticks w).
Definition set_results (f : gmap string bytes -> gmap string bytes) (w : world) :=
  mk_world (uploads w) (f (results w)) (heap w) (trace w) (uuids w) (ticks w).
Definition set_heap (f : gmap loc ndarray -> gmap loc ndarray) (w : world) :=
  mk_world (uploads w) (results w) (f (heap w)) (trace w) (uuids w) (ticks w).
Definition log (ev : event) (w : world) :=
  mk_world (uploads w) (results w) (heap w) (trace w ++ [ev]) (uuids w) (ticks w).
Definition next_uuid (w : world) :=
  mk_world (uploads w) (results w) (heap w) (trace w) (S (uuids w)) (ticks w).
Definition next_tick (w : world) :=
  mk_world (uploads w) (results w) (heap w) (trace w) (uuids w) (S (ticks w)).

(** ** Computations *)

Definition M (A : Type) : Type := world -> result A * world.

Definition ret {A} (a : A) : M A := fun w => (Ok a, w).
Definition raise {A} (e : exn) : M A := fun w => (Raise e, w).
Definition bind {A B} (m : M A) (k : A -> M B) : M B :=
  fun w =>
    match m w with
    | (Ok a, w') => k a w'
    | (Raise e, w') => (Raise e, w')
    end.

Notation "x <- m ;; k" := (bind m (fun x => k))
  (at level 100, m at next level, right associativity).
Notation "m ;;; k" := (bind m (fun _ => k))
  (at level 100, right associativity).

(** [try: body except Exception as e: handler e] *)
Definition try_except {A} (body : M A) (handler : exn -> M A) : M A :=
  fun w =>
    match body w with
    | (Ok a, w') => (Ok a, w')
    | (Raise e, w') => handler e w'
    end.

(** [for x in xs: body x] *)
Fixpoint for_each {A} (xs : list A) (body : A -> M unit) : M unit :=
  match xs with
  | [] => ret tt
  | x :: xs' => body x ;;; for_each xs' body
  end.

Definition emit (ev : event) : M unit := fun w => (Ok tt, log ev w).

(** ** What the imported libraries do *)

Record platform : Type := mk_platform {
  (** the value of the n-th call of [time.time()] *)
  time_at : nat -> Q;
  (** [str] of the n-th [uuid.uuid4()] *)
  uuid4_at : nat -> string;
  (** [os.path.splitext] *)
  splitext : string -> string * string;
  (** [str(e)] *)
  exn_str : exn -> string;
  (** what [cv2.imread] decodes from the content of a file, if anything *)
  imdecode : bytes -> option ndarray;
  (** [cv2.imwrite] for a file name: raises, returns [False] and writes
      nothing, or writes the encoded image *)
  imencode : string -> ndarray -> result (option bytes);
  (** [cv2.getTextSize(text, font, font_scale, thickness)] *)
  getTextSize : string -> Z -> Q -> Z -> (Z * Z) * Z;
  (** the pixels [cv2.rectangle] leaves in an array of a given shape *)
  rectangle_px :
    Z * Z -> point -> point -> color -> Z -> (Z -> Z -> color) -> Z -> Z -> color;
  (** the pixels [cv2.putText] leaves in an array of a given shape *)
  putText_px :
    Z * Z -> string -> point -> Z -> Q -> color -> Z ->
    (Z -> Z -> color) -> Z -> Z -> color
}.

(** ** Module-level constants *)

Definition BASE_DIR : string := "E:/Python/MIFI/project-practice".
Definition MODEL_PATH : string := BASE_DIR +:+ "/models/trained/best_model.pt".
Definition UPLOAD_DIR : string := BASE_DIR +:+ "/static/uploads".
Definition RESULT_DIR : string := BASE_DIR +:+ "/static/results".

(** [str(UPLOAD_DIR / filename)] *)
Definition upload_path (filename : string) : string :=
  UPLOAD_DIR +:+ "/" +:+ filename.

(** The keys of [COLORS] are strings and ints. *)
Abbreviation color_key := (string + Z)%type.

Definition COLORS : gmap color_key color :=
  <[inl "flare" := (0, 0, 255)]> (
  <[inl "fire" := (0, 165, 255)]> (
  <[inl "smoke" := (128, 128, 128)]> (
  <[inr 0 := (0, 0, 255)]> (
  <[inr 1 := (0, 165, 255)]> (
  <[inr 2 := (128, 128, 128)]> ∅))))).

Definition FONT_HERSHEY_SIMPLEX : Z := 0.

(** ** Detection records *)

Module Det.
(** The dict appended to [detections] by [process_with_yolo]; the fields
    are its keys. *)
Record t : Type := mk {
  class : string;
  class_id : Z;
  confidence : Q;
  x : pyfloat;
  y : pyfloat;
  width : pyfloat;
  height : pyfloat;
  x1 : Q;
  y1 : Q;
  x2 : Q;
  y2 : Q
}.
End Det.

Abbreviation detection := Det.t.

(** ** process_with_yolo *)

(** The body of [for box in boxes]: the record appended for one row.  The
    corners are float32 scalars, so the centre and the size are computed
    in float32; [float] then widens each number. *)
Definition detection_of_box (m : YOLO) (box : Box) : detection :=
  let '(x1, y1, x2, y2) := box_xyxy box in
  let confidence := box_conf box in
  let class_id := py_int (box_cls box) in
  let class_name := dict_get (names m) class_id ("class_" +:+ pretty class_id) in
  let center_x := np_half (np_add x1 x2) in
  let center_y := np_half (np_add y1 y2) in
  let width := np_sub x2 x1 in
  let height := np_sub y2 y1 in
  Det.mk class_name class_id confidence
         center_x center_y width height x1 y1 x2 y2.

Definition model_predict (m : YOLO) (a : predict_args) : M (list Results) :=
  fun w =>
    let w' := log (EvPredict a) w in
    match predict m (uploads w) a with
    | Ok rs => (Ok rs, w')
    | Raise e => (Raise e, w')
    end.

Definition process_with_yolo (model : option YOLO)
    (image_path : string) (confidence_threshold : Q) : M (list detection) :=
  match model with
  | None => raise (ValueError "Модель не загружена")
  | Some m =>
      results <- model_predict m
        (mk_predict_args image_path confidence_threshold 0.45%Q "cpu" false false) ;;
      let detections : list detection := [] in
      match results with
      | [] => ret detections
      | r0 :: _ =>
          match boxes r0 with
          | None | Some [] => ret detections
          | Some bs =>
              ret (fold_left
                     (fun detections box => detections ++ [detection_of_box m box])
                     bs detections)
          end
      end
  end.

(** ** draw_predictions *)

(** [image.copy()] *)
Definition ndarray_copy (image : loc) : M loc :=
  fun w =>
    match heap w !! image with
    | Some a =>
        let l := fresh (dom (heap w)) in
        (Ok l, set_heap (insert l a) w)
    | None =>
        (Raise (AttributeError "'NoneType' object has no attribute 'copy'"), w)
    end.

(** [image.shape[:2]] *)
Definition ndarray_shape (image : loc) : M (Z * Z) :=
  fun w =>
    match heap w !! image with
    | Some a => (Ok (shape a), w)
    | None =>
        (Raise (AttributeError "'NoneType' object has no attribute 'shape'"), w)
    end.

Section Renderer.

Context (P : platform).

Definition cv2_rectangle (img : loc) (pt1 pt2 : point) (c : color)
    (thickness : Z) : M unit :=
  fun w =>
    match heap w !! img with
    | Some a =>
        let a' := mk_ndarray (shape a)
                    (rectangle_px P (shape a) pt1 pt2 c thickness (pixel a)) in
        (Ok tt, log (EvRectangle img pt1 pt2 c thickness)
                    (set_heap (insert img a') w))
    | None => (Raise (Cv2Error "img is not a numpy array"), w)
    end.

Definition cv2_putText (img : loc) (text : string) (org : point) (font : Z)
    (font_scale : Q) (c : color) (thickness : Z) : M unit :=
  fun w =>
    match heap w !! img with
    | Some a =>
        let a' := mk_ndarray (shape a)
                    (putText_px P (shape a) text org font font_scale c thickness
                       (pixel a)) in
        (Ok tt, log (EvPutText img text org font font_scale c thickness)
                    (set_heap (insert img a') w))
    | None => (Raise (Cv2Error "img is not a numpy array"), w)
    end.

(** The body of [for detection in detections]. *)
Definition draw_detection (annotated : loc) (detection : detection) : M unit :=
  let x1 := py_int (Det.x1 detection) in
  let y1 := py_int (Det.y1 detection) in
  let x2 := py_int (Det.x2 detection) in
  let y2 := py_int (Det.y2 detection) in
  let class_name := Det.class detection in
  let class_id := Det.class_id detection in
  let confidence := Det.confidence detection in
  let color :=
    dict_get COLORS (inl class_name)
      (dict_get COLORS (inr class_id) (255, 255, 255)) in
  let thickness := if Qle_bool confidence 0.5%Q then 2 else 3 in
  cv2_rectangle annotated (x1, y1) (x2, y2) color thickness ;;;
  let label := class_name +:+ " " +:+ format_percent0 confidence in
  let font := FONT_HERSHEY_SIMPLEX in
  let font_scale := 0.6%Q in
  let text_thickness := 2 in
  let '((text_width, text_height), baseline) :=
    getTextSize P label font font_scale text_thickness in
  let text_bg_y1 := Z.max 0 (y1 - text_height - 10) in
  let text_bg_y2 := y1 in
  let text_bg_x1 := x1 in
  let text_bg_x2 := x1 + text_width in
  cv2_rectangle annotated (text_bg_x1, text_bg_y1) (text_bg_x2, text_bg_y2)
    color (-1) ;;;
  cv2_putText annotated label (x1, y1 - 5) font font_scale (255, 255, 255)
    text_thickness.

Definition draw_predictions (image : loc) (detections : list detection) : M loc :=
  annotated <- ndarray_copy image ;;
  hw <- ndarray_shape annotated ;;
  let '(height, width) := hw in
  for_each detections (draw_detection annotated) ;;;
  ret annotated.

End Renderer.

(** ** The /process endpoint *)

Record UploadFile : Type := mk_UploadFile {
  filename : option string;
  content : bytes
}.

Module Response.
Record model_info_t : Type := mk_model_info {
  name : string;
  path : string;
  classes : list string
}.

Record t : Type := mk {
  success : bool;
  original_image : string;
  result_image : string;
  total_detections : Z;
  class_stats : gmap string Z;
  detections : list detection;
  image_width : Z;
  image_height : Z;
  processing_time : Q;
  confidence_threshold : Q;
  model_info : model_info_t
}.
End Response.

Section Endpoint.

Context (P : platform).

(** [time.time()] *)
Definition time_time : M Q :=
  fun w => (Ok (time_at P (ticks w)), next_tick w).

(** [str(uuid.uuid4())] *)
Definition uuid4 : M string :=
  fun w => (Ok (uuid4_at P (uuids w)), next_uuid w).

(** [os.path.splitext(file.filename)[1]] *)
Definition filename_extension (file : UploadFile) : M string :=
  match filename file with
  | Some fn => ret (snd (splitext P fn))
  | None =>
      raise (TypeError "expected str, bytes or os.PathLike object, not NoneType")
  end.

(** [await file.read()] *)
Definition file_read (file : UploadFile) : M bytes :=
  emit (EvFileRead (default "" (filename file))) ;;;
  ret (content file).

(** [with open(UPLOAD_DIR / filename, "wb") as f: f.write(contents)] *)
Definition write_upload (filename : string) (contents : bytes) : M unit :=
  fun w => (Ok tt, log (EvOpenWrite filename)
                       (set_uploads (insert filename contents) w)).

(** [cv2.imread(str(UPLOAD_DIR / filename))]: [None] when there is no such
    file or its content does not decode. *)
Definition cv2_imread (filename : string) : M (option loc) :=
  fun w =>
    let w1 := log (EvImread filename) w in
    match uploads w !! filename with
    | Some b =>
        match imdecode P b with
        | Some a =>
            let l := fresh (dom (heap w)) in
            (Ok (Some l), set_heap (insert l a) w1)
        | None => (Ok None, w1)
        end
    | None => (Ok None, w1)
    end.

(** [cv2.imwrite(str(RESULT_DIR / filename), img)] *)
Definition cv2_imwrite (filename : string) (img : loc) : M bool :=
  fun w =>
    let w1 := log (EvImwrite filename) w in
    match heap w !! img with
    | Some a =>
        match imencode P filename a with
        | Ok (Some b) => (Ok true, set_results (insert filename b) w1)
        | Ok None => (Ok false, w1)
        | Raise e => (Raise e, w1)
        end
    | None => (Raise (Cv2Error "img is not a numpy array"), w1)
    end.

(** The statistics loop of [process_image]: its body, and the loop run
    from the empty dict. *)
Definition count_class (class_stats : gmap string Z) (detection : detection)
    : gmap string Z :=
  let class_name := Det.class detection in
  <[class_name := dict_get class_stats class_name 0 + 1]> class_stats.

Definition count_classes (detections : list detection) : gmap string Z :=
  fold_left count_class detections ∅.

Definition process_image (model : option YOLO) (file : UploadFile)
    (confidence : Q) : M Response.t :=
  start_time <- time_time ;;
  match model with
  | None => raise (HTTPException 503 "Модель YOLO не загружена")
  | Some m =>
      try_except
        (ext <- filename_extension file ;;
         let file_extension := if decide (ext = "") then ".jpg" else ext in
         u <- uuid4 ;;
         let filename := u +:+ file_extension in
         contents <- file_read file ;;
         write_upload filename contents ;;;
         loaded <- cv2_imread filename ;;
         match loaded with
         | None => raise (HTTPException 400 "Не удалось загрузить изображение")
         | Some image =>
             hw <- ndarray_shape image ;;
             let '(height, width) := hw in
             detections <- process_with_yolo model (upload_path filename)
                             confidence ;;
             annotated_image <- draw_predictions P image detections ;;
             let result_filename := "result_" +:+ filename in
             cv2_imwrite result_filename annotated_image ;;;
             let class_stats := count_classes detections in
             now <- time_time ;;
             let processing_time := (now - start_time)%Q in
             ret (Response.mk true filename result_filename
                    (Z.of_nat (length detections)) class_stats detections
                    width height processing_time confidence
                    (Response.mk_model_info "YOLO Локальная модель" MODEL_PATH
                       (names_values m)))
         end)
        (fun e =>
           raise (HTTPException 500 ("Ошибка обработки: " +:+ exn_str P e)))
  end.

End Endpoint.

(** ** The /model_info endpoint *)

Module ModelInfo.
Record t : Type := mk {
  model_loaded : bool;
  model_path : string;
  classes : list string;
  num_classes : Z
}.
End ModelInfo.

(** What [get_model_info] answers: the [JSONResponse] of the error case,
    or the dict. *)
Inductive model_info_answer : Type :=
| JSONResponse (status_code : Z) (error : string)
| ModelInfoDict (info : ModelInfo.t).

(** A YOLO object always has [names], so [hasattr(model, 'names')] holds
    whenever the model is loaded. *)
Definition get_model_info (model : option YOLO) : model_info_answer :=
  match model with
  | None => JSONResponse 503 "Модель не загружена"
  | Some m =>
      let classes := names_values m in
      ModelInfoDict
        (ModelInfo.mk
           (match model with None => false | Some _ => true end)
           MODEL_PATH
           classes
           (match classes with
            | [] => 0
            | _ => Z.of_nat (length classes)
            end))
  end.

(** ** The /test_image endpoint *)

Module TestImage.
Record t : Type := mk {
  test_image : string;
  result_image : string;
  detections : Z;
  detections_list : list detection
}.
End TestImage.

(** What [test_image_processing] returns: the error dict, or the result
    dict. *)
Inductive test_image_answer : Type :=
| TestImageError (error : string)
| TestImageDict (answer : TestImage.t).

(** [shutil.copy2(test_image_path, UPLOAD_DIR / filename)] *)
Definition shutil_copy2 (contents : bytes) (filename : string) : M unit :=
  fun w => (Ok tt, set_uploads (insert filename contents) w).

Section TestEndpoint.

Context (P : platform).

(** [test_image] is the content of the file at [test_image_path], [None]
    when there is no such file.  [draw_predictions] is given whatever
    [cv2.imread] returned; on [None] its first statement, [image.copy()],
    raises. *)
Definition test_image_processing (model : option YOLO)
    (test_image : option bytes) : M test_image_answer :=
  match test_image with
  | None => ret (TestImageError "Тестовое изображение не найдено")
  | Some contents =>
      u <- uuid4 P ;;
      let filename := "test_" +:+ u +:+ ".jpg" in
      shutil_copy2 contents filename ;;;
      detections <- process_with_yolo model (upload_path filename) 0.25%Q ;;
      image <- cv2_imread P filename ;;
      annotated <-
        match image with
        | Some image => draw_predictions P image detections
        | None =>
            raise (AttributeError "'NoneType' object has no attribute 'copy'")
        end ;;
      let result_filename := "result_" +:+ filename in
      cv2_imwrite P result_filename annotated ;;;
      ret (TestImageDict
             (TestImage.mk filename result_filename
                (Z.of_nat (length detections)) detections))
  end.

End TestEndpoint.

(** * Vocabulary of the properties *)

(** ** Statistics *)

(** [sum(class_stats.values())] *)
Definition sum_values (m : gmap string Z) : Z :=
  map_fold (fun _ v acc => v + acc) 0 m.

(** How many records of a detection list carry a label. *)
Definition occurrences (k : string) (D : list detection) : nat :=
  length (filter (fun d => Det.class d = k) D).

(** ** Concrete libraries and inputs, to run the pipeline on *)

Definition stub_image : ndarray := mk_ndarray (480, 640) (fun _ _ => (0, 0, 0)).

(** A platform whose decoder accepts the contents that start with byte
    0x89, and whose rectangles are filled axis-aligned boxes. *)
Definition stub_platform : platform :=
  mk_platform
    (fun n => inject_Z (Z.of_nat n))
    (fun n => "uuid" +:+ pretty n)
    (fun fn => (fn, ""))
    (fun e => match e with
              | HTTPException c d => pretty c +:+ ": " +:+ d
              | ValueError m | AttributeError m | TypeError m
              | Cv2Error m | InferenceError m => m
              end)
    (fun b => match b with Byte.x89 :: _ => Some stub_image | _ => None end)
    (fun _ _ => Ok (Some [Byte.x89]))
    (fun text _ _ _ => ((11 * Z.of_nat (String.length text), 13), 6))
    (fun _ pt1 pt2 c _ px i j =>
       if (pt1.2 <=? i) && (i <=? pt2.2) && (pt1.1 <=? j) && (j <=? pt2.1)
       then c else px i j)
    (fun _ _ _ _ _ _ _ px => px).

(** A model that knows one label and reports two rows, the first of a
    class its label table lacks. *)
Definition stub_model : YOLO :=
  mk_YOLO [(0, "flare")] (NoDup_singleton 0)
    (fun _ _ => Ok [mk_Results (Some [mk_Box (10, 0, 50, 40)%Q 0.9%Q 7%Q;
                                      mk_Box (1, 2, 4, 8)%Q 0.125%Q 0%Q])]).

Definition empty_world : world := mk_world ∅ ∅ ∅ [] 0 0.

Definition png_upload : UploadFile := mk_UploadFile (Some "a.png") [Byte.x89].

Definition text_upload : UploadFile := mk_UploadFile (Some "notes.txt") [Byte.x00].

(** ** Calls, rows and drawings *)

(** The arguments of the one call [process_with_yolo] makes to the model. *)
Definition call_args (image_path : string) (confidence_threshold : Q)
    : predict_args :=
  mk_predict_args image_path confidence_threshold 0.45%Q "cpu" false false.

(** The rows the loop of [process_with_yolo] goes through. *)
Definition raw_rows (rs : list Results) : list Box :=
  match rs with
  | [] => []
  | r0 :: _ => default [] (boxes r0)
  end.

(** [drew l evs w w']: from [w] to [w'] the array behind reference [l] got
    new pixels and kept its shape, the calls [evs] were made, and nothing
    else changed. *)
Definition drew (l : loc) (evs : list event) (w w' : world) : Prop :=
  (exists a a', heap w !! l = Some a /\ shape a' = shape a /\
                heap w' = <[l := a']> (heap w)) /\
  trace w' = trace w ++ evs /\
  uploads w' = uploads w /\ results w' = results w /\
  uuids w' = uuids w /\ ticks w' = ticks w.

(** [draws l evs m]: wherever [l] is a live reference, [m] returns and
    has drawn through [l]. *)
Definition draws (l : loc) (evs : list event) (m : M unit) : Prop :=
  forall w, is_Some (heap w !! l) ->
            exists w', m w = (Ok tt, w') /\ drew l evs w w'.

(** The three cv2 calls of one turn of the loop: the box, the background
    of the label, the label. *)
Definition detection_events (P : platform) (l : loc) (d : detection) : list event :=
  let x1 := py_int (Det.x1 d) in
  let y1 := py_int (Det.y1 d) in
  let x2 := py_int (Det.x2 d) in
  let y2 := py_int (Det.y2 d) in
  let c := dict_get COLORS (inl (Det.class d))
             (dict_get COLORS (inr (Det.class_id d)) (255, 255, 255)) in
  let label := Det.class d +:+ " " +:+ format_percent0 (Det.confidence d) in
  let size := fst (getTextSize P label FONT_HERSHEY_SIMPLEX 0.6%Q 2) in
  [ EvRectangle l (x1, y1) (x2, y2) c
      (if Qle_bool (Det.confidence d) 0.5%Q then 2 else 3);
    EvRectangle l (x1, Z.max 0 (y1 - snd size - 10)) (x1 + fst size, y1) c (-1);
    EvPutText l label (x1, y1 - 5) FONT_HERSHEY_SIMPLEX 0.6%Q (255, 255, 255) 2 ].

(** A world whose heap holds one decoded image, and two records to draw. *)
Definition studio : world := mk_world ∅ ∅ (<[1%positive := stub_image]> ∅) [] 0 0.

Definition two_detections : list detection :=
  map (detection_of_box stub_model)
    [mk_Box (10, 0, 50, 40)%Q 0.9%Q 7%Q; mk_Box (1, 2, 4, 8)%Q 0.125%Q 0%Q].

(** Is an event a call of the detection capability? *)
Definition is_predict (ev : event) : bool :=
  match ev with EvPredict _ => true | _ => false end.

(** The array a cv2 drawing call writes to. *)
Definition event_target (ev : event) : option loc :=
  match ev with
  | EvRectangle img _ _ _ _ => Some img
  | EvPutText img _ _ _ _ _ _ => Some img
  | _ => None
  end.

(** The name under which [process_image] stores an upload called [fn]:
    the identifier drawn, then the extension of [fn] or ".jpg". *)
Definition stored_name (P : platform) (fn : string) (w : world) : string :=
  uuid4_at P (uuids w)
  +:+ (if decide ((splitext P fn).2 = "") then ".jpg" else (splitext P fn).2).

(** A platform like [stub_platform] whose [cv2.imwrite] returns [False]. *)
Definition readonly_platform : platform :=
  mk_platform
    (time_at stub_platform) (uuid4_at stub_platform) (splitext stub_platform)
    (exn_str stub_platform) (imdecode stub_platform)
    (fun _ _ => Ok None)
    (getTextSize stub_platform) (rectangle_px stub_platform)
    (putText_px stub_platform).

(** A model whose [predict] raises. *)
Definition failing_model : YOLO :=
  mk_YOLO [(0, "flare")] (NoDup_singleton 0)
    (fun _ _ => Raise (InferenceError "corrupt image")).

(** The name under which [test_image_processing] copies the test image. *)
Definition test_name (P : platform) (w : world) : string :=
  "test_" +:+ uuid4_at P (uuids w) +:+ ".jpg".

(** [float32_close v t]: [v] is as close to [t] as rounding [t] to float32
    leaves it, within the relative error 2^-24 or within 2^-150, half the
    least float32 above 0. *)
Definition float32_close (v t : Q) : Prop :=
  (Qabs (v - t) <= Qabs t * 2 ^ (-24))%Q \/ (Qabs (v - t) <= 2 ^ (-150))%Q.

(** A row whose corners are the float32 numbers nearest to 100.3, 50.7,
    200.9 and 120.2, and a model that reports it. *)
Definition float32_row : Box :=
  mk_Box (6573261 # 65536, 13290701 # 262144, 6583091 # 32768, 7877427 # 65536)%Q
    (7549747 # 8388608)%Q 0%Q.

Definition float32_model : YOLO :=
  mk_YOLO [(0, "flare")] (NoDup_singleton 0)
    (fun _ _ => Ok [mk_Results (Some [float32_row])]).

(** * Properties *)

(** ** Rounding *)

Lemma round_half_even_nearest (v : Q) :
  2 * Z.abs (Qnum v - round_half_even v * Zpos (Qden v)) <= Zpos (Qden v).
Proof.
  unfold round_half_even.
  pose proof (Z.div_mod (Qnum v) (Zpos (Qden v)) ltac:(lia)) as Hdm.
  pose proof (Z.mod_pos_bound (Qnum v) (Zpos (Qden v)) ltac:(lia)) as Hr.
  repeat case_match; lia.
Qed.

Lemma round_half_even_of_zero (t : Q) : Qnum t = 0 -> round_half_even t = 0.
Proof. intros Hn. unfold round_half_even. by rewrite Hn. Qed.

Lemma round_half_even_nonneg (t : Q) : 0 <= Qnum t -> 0 <= round_half_even t.
Proof.
  intros Hn. unfold round_half_even.
  pose proof (Z.div_pos (Qnum t) (Zpos (Qden t)) Hn ltac:(lia)).
  repeat case_match; lia.
Qed.

Lemma round_half_even_within_half (t : Q) :
  (Qabs (inject_Z (round_half_even t) - t) <= 1 # 2)%Q.
Proof.
  pose proof (round_half_even_nearest t) as Hn.
  destruct t as [n d]. simpl in Hn.
  unfold Qle, Qabs, Qminus, Qplus, Qopp, inject_Z. simpl. lia.
Qed.

Lemma pow2_pos (e : Z) : (0 < 2 ^ e)%Q.
Proof. by apply Qpower_0_lt. Qed.

(** [ilog2 a] is not above the binary logarithm of [a]. *)
Lemma ilog2_le (a : Q) : (0 < a)%Q -> (2 ^ ilog2 a <= a)%Q.
Proof.
  intros Ha. unfold ilog2.
  destruct (Qle_bool _ a) eqn:Hb; [by apply Qle_bool_iff|].
  destruct a as [n d]. unfold Qlt in Ha. simpl in Ha. cbn [Qnum Qden].
  assert (Hn : 0 < n) by lia.
  pose proof (Z.log2_spec n Hn) as [Hp _].
  pose proof (Z.log2_spec (Zpos d) ltac:(lia)) as [_ Hs].
  pose proof (Z.log2_nonneg n). pose proof (Z.log2_nonneg (Zpos d)).
  set (p := Z.log2 n) in *. set (s := Z.log2 (Z.pos d)) in *.
  replace (p - s - 1) with (p - (s + 1)) by lia.
  rewrite Qpower_minus by done.
  change 2%Q with (inject_Z 2).
  rewrite <- !Zpower_Qpower by lia.
  rewrite (Qmake_Qdiv n d).
  assert (H1 : (inject_Z (2 ^ p) <= inject_Z n)%Q) by (by rewrite <- Zle_Qle).
  assert (H2 : (inject_Z (Z.pos d) <= inject_Z (2 ^ (s + 1)))%Q)
    by (rewrite <- Zle_Qle; unfold Z.succ in Hs; lia).
  assert (H3 : (0 < inject_Z (Z.pos d))%Q) by (by rewrite <- (Zlt_Qlt 0)).
  assert (H4 : (0 < inject_Z (2 ^ p))%Q)
    by (rewrite <- (Zlt_Qlt 0); apply Z.pow_pos_nonneg; lia).
  set (A := inject_Z (2 ^ p)) in *. set (B := inject_Z (2 ^ (s + 1))) in *.
  set (N := inject_Z n) in *. set (D := inject_Z (Z.pos d)) in *.
  apply Qle_shift_div_l; [done|].
  apply Qle_trans with (A / B * B)%Q.
  - apply Qmult_le_l; [|done]. apply Qlt_shift_div_l; lra.
  - field_simplify; [lra | lra].
Qed.


Lemma binary_quantum_pos prec emin a : (0 < binary_quantum prec emin a)%Q.
Proof. apply pow2_pos. Qed.

Lemma binary_quantum_bound prec emin (a : Q) :
  (0 < a)%Q ->
  (binary_quantum prec emin a <= a * 2 ^ (1 - prec))%Q \/
  (binary_quantum prec emin a == 2 ^ (emin - prec + 1))%Q.
Proof.
  intros Ha. unfold binary_quantum.
  destruct (Z.max_spec (ilog2 a) emin) as [[_ ->] | [_ ->]].
  - right. by replace (emin - (prec - 1)) with (emin - prec + 1) by lia.
  - left. replace (ilog2 a - (prec - 1)) with (ilog2 a + (1 - prec)) by lia.
    rewrite Qpower_plus by done.
    apply Qmult_le_compat_r; [by apply ilog2_le|]. apply Qlt_le_weak, pow2_pos.
Qed.


(** What [round_to_binary] finds before it looks at the range: within half
    the spacing of the magnitude rounded. *)
Lemma round_to_binary_magnitude prec emin (q : Q) :
  let u := binary_quantum prec emin (Qabs q) in
  (Qabs (inject_Z (round_half_even (Qabs q / u)) * u - Qabs q)
   <= u * (1 # 2))%Q.
Proof.
  intros u. pose proof (binary_quantum_pos prec emin (Qabs q)) as Hu. fold u in Hu.
  pose proof (round_half_even_within_half (Qabs q / u)) as Hm.
  set (m := round_half_even (Qabs q / u)) in *.
  assert (He : (inject_Z m * u - Qabs q == (inject_Z m - Qabs q / u) * u)%Q)
    by (field; lra).
  rewrite He, Qabs_Qmult, (Qabs_pos u) by lra.
  rewrite (Qmult_comm u). apply Qmult_le_compat_r; [done | lra].
Qed.

(** A finite result is within half the spacing of the value rounded. *)
Lemma round_to_binary_nearest prec emin emax (q v : Q) :
  round_to_binary prec emin emax q = Finite v ->
  (Qabs (v - q) <= binary_quantum prec emin (Qabs q) * (1 # 2))%Q.
Proof.
  pose proof (round_to_binary_magnitude prec emin q) as Hr. cbv zeta in Hr.
  unfold round_to_binary.
  set (u := binary_quantum prec emin (Qabs q)) in *.
  set (m := round_half_even (Qabs q / u)) in *.
  destruct (Qle_bool (2 ^ emax) _); [done|]. intros [= <-].
  rewrite Qred_correct.
  destruct (Qle_bool 0 q) eqn:Hs.
  - apply Qle_bool_iff in Hs. by rewrite (Qabs_pos q Hs) in Hr.
  - assert (Hq : (q <= 0)%Q).
    { destruct (Qlt_le_dec q 0) as [H|H]; [lra|].
      apply Qle_bool_iff in H. congruence. }
    rewrite (Qabs_neg q Hq) in Hr.
    assert (He : (- (inject_Z m * u) - q == - (inject_Z m * u - - q))%Q) by ring.
    by rewrite He, Qabs_opp.
Qed.


(** The error of a finite result: at most the relative error 2^-prec, or
    half the spacing of the subnormal numbers. *)
Lemma round_to_binary_error prec emin emax (q v : Q) :
  round_to_binary prec emin emax q = Finite v ->
  (Qabs (v - q) <= Qabs q * 2 ^ (- prec))%Q \/
  (Qabs (v - q) <= 2 ^ (emin - prec))%Q.
Proof.
  intros Hv. pose proof (round_to_binary_nearest _ _ _ _ _ Hv) as Hn.
  destruct (Qeq_dec q 0) as [Hz|Hz].
  - left. revert Hv. unfold round_to_binary.
    set (u := binary_quantum prec emin (Qabs q)).
    destruct (Qle_bool (2 ^ emax) _); [done|]. intros [= <-].
    rewrite Qred_correct.
    assert (H0 : Qnum (Qabs q / u) = 0).
    { destruct q as [n d]. unfold Qeq in Hz. simpl in Hz.
      assert (n = 0) as -> by lia. done. }
    rewrite (round_half_even_of_zero _ H0). change (inject_Z 0) with 0%Q.
    apply Qle_trans with 0%Q.
    + destruct (Qle_bool 0 q).
      * assert (He : (0 * u - q == 0)%Q) by lra. by rewrite He.
      * assert (He : (- (0 * u) - q == 0)%Q) by lra. by rewrite He.
    + apply Qmult_le_0_compat; [apply Qabs_nonneg | apply Qlt_le_weak, pow2_pos].
  - assert (Ha : (0 < Qabs q)%Q).
    { pose proof (Qabs_nonneg q). destruct (Qeq_dec (Qabs q) 0) as [H0|H0]; [|lra].
      exfalso. apply Hz. destruct (Qlt_le_dec q 0) as [Hl|Hl].
      - rewrite Qabs_neg in H0 by lra. lra.
      - rewrite Qabs_pos in H0 by lra. done. }
    assert (Hhalf : forall e, (2 ^ e * (1 # 2) == 2 ^ (e - 1))%Q).
    { intros e. rewrite Qpower_minus by done. simpl. field. }
    destruct (binary_quantum_bound prec emin (Qabs q) Ha) as [Hb|Hb].
    + left. apply Qle_trans with (1 := Hn).
      replace (- prec) with (1 - prec - 1) by lia.
      rewrite <- Hhalf, Qmult_assoc.
      apply Qmult_le_compat_r; [done | lra].
    + right. rewrite Hb, Hhalf in Hn.
      by replace (emin - prec + 1 - 1) with (emin - prec) in Hn by lia.
Qed.

(** Rounding keeps what is not negative from becoming negative. *)
Lemma round_to_binary_sign prec emin emax (q : Q) :
  (0 <= q)%Q ->
  match round_to_binary prec emin emax q with
  | Finite v => (0 <= v)%Q
  | Infinite negative => negative = false
  end.
Proof.
  intros Hq. unfold round_to_binary.
  apply Qle_bool_iff in Hq as Hb. rewrite Hb.
  destruct (Qle_bool (2 ^ emax) _); [done|]. rewrite Qred_correct.
  apply Qmult_le_0_compat; [|apply Qlt_le_weak, binary_quantum_pos].
  rewrite <- (Zle_Qle 0). apply round_half_even_nonneg.
  pose proof (binary_quantum_pos prec emin (Qabs q)) as Hu.
  destruct (binary_quantum prec emin (Qabs q)) as [un ud].
  destruct q as [n d]. unfold Qle, Qlt in *. simpl in *.
  destruct un; simpl; try lia.
Qed.

(** Roundings to float32: the number nearest to 100.3, a tie that goes to
    the even neighbour, a number that is kept, the least number that
    overflows and the greatest that does not. *)
Example round_to_float32_examples :
  round_to_float32 100.3 = Finite (6573261 # 65536) /\
  round_to_float32 (19739443 # 65536) = Finite (4934861 # 16384) /\
  round_to_float32 (4934861 # 32768) = Finite (4934861 # 32768) /\
  round_to_float32 340282356779733661637539395458142568448 = Infinite false /\
  round_to_float32 340282356779733661637539395458142568447
  = Finite 340282346638528859811704183484516925440.
Proof. repeat split; vm_compute; reflexivity. Qed.

(** The double product by 100 of the double nearest to 0.995 is 99.5,
    which is printed as 100. *)
Example format_percent0_of_a_double :
  format_percent0 (8962163258467287 # 9007199254740992) = "100%".
Proof. vm_compute. reflexivity. Qed.

Lemma round_to_float32_close (q v : Q) :
  round_to_float32 q = Finite v -> float32_close v q.
Proof. apply (round_to_binary_error 24 (-126) 128). Qed.

Lemma np_half_close (x : pyfloat) (v : Q) :
  np_half x = Finite v ->
  exists s, x = Finite s /\ float32_close v (s / 2).
Proof.
  destruct x as [s|n]; [|done]. intros Hv. exists s.
  split; [done | by apply round_to_float32_close].
Qed.

(** ** Statistics *)

Lemma sum_values_insert_fresh (m : gmap string Z) k v :
  m !! k = None -> sum_values (<[k := v]> m) = v + sum_values m.
Proof.
  intros Hk. unfold sum_values.
  rewrite map_fold_insert_L; [done | intros; lia | done].
Qed.

Lemma sum_values_insert (m : gmap string Z) k v :
  sum_values (<[k := v]> m) = v - default 0 (m !! k) + sum_values m.
Proof.
  destruct (m !! k) as [v0|] eqn:Hk; simpl.
  - rewrite <- (insert_delete_id m k v0 Hk) at 2.
    rewrite <- insert_delete_eq.
    rewrite !sum_values_insert_fresh by apply lookup_delete_eq. lia.
  - rewrite sum_values_insert_fresh by done. lia.
Qed.

Lemma sum_values_count_class (m : gmap string Z) d :
  sum_values (count_class m d) = sum_values m + 1.
Proof.
  unfold count_class, dict_get. rewrite sum_values_insert.
  destruct (m !! Det.class d); simpl; lia.
Qed.

Lemma sum_values_fold (D : list detection) (acc : gmap string Z) :
  sum_values (fold_left count_class D acc)
  = sum_values acc + Z.of_nat (length D).
Proof.
  revert acc. induction D as [|d D IH]; intros acc; simpl.
  - lia.
  - rewrite IH, sum_values_count_class. lia.
Qed.

Lemma lookup_count_class (m : gmap string Z) d k :
  count_class m d !! k
  = if decide (Det.class d = k) then Some (default 0 (m !! k) + 1) else m !! k.
Proof.
  unfold count_class, dict_get. case_decide as Hk.
  - subst k. rewrite lookup_insert_eq. by destruct (m !! Det.class d).
  - by rewrite lookup_insert_ne.
Qed.

Lemma lookup_fold_count_class (D : list detection) (acc : gmap string Z) k :
  fold_left count_class D acc !! k
  = if decide (occurrences k D = 0%nat) then acc !! k
    else Some (default 0 (acc !! k) + Z.of_nat (occurrences k D)).
Proof.
  revert acc. induction D as [|d D IH]; intros acc; [done|].
  simpl fold_left. rewrite IH, lookup_count_class.
  unfold occurrences in *. rewrite filter_cons.
  destruct (decide (Det.class d = k)) as [Hd|Hd]; simpl.
  - case_decide; simpl; f_equal; lia.
  - by case_decide.
Qed.

Lemma lookup_count_classes (D : list detection) k :
  count_classes D !! k
  = if decide (occurrences k D = 0%nat) then None
    else Some (Z.of_nat (occurrences k D)).
Proof.
  unfold count_classes. rewrite lookup_fold_count_class, lookup_empty.
  case_decide; [done|]. simpl. f_equal.
Qed.

Lemma occurrences_pos (D : list detection) k :
  occurrences k D ≠ 0%nat <-> exists d, d ∈ D /\ Det.class d = k.
Proof.
  unfold occurrences. split.
  - intros Hn. destruct (filter _ D) as [|d l] eqn:Hf; [done|].
    assert (Hin : d ∈ filter (fun d => Det.class d = k) D)
      by (rewrite Hf; left).
    apply list_elem_of_filter in Hin as [Hk Hd]. by exists d.
  - intros (d & Hd & Hk) Hz.
    assert (Hin : d ∈ filter (fun d => Det.class d = k) D)
      by (apply list_elem_of_filter; done).
    destruct (filter _ D); [by inversion Hin | done].
Qed.

(** C3. For every detection list [D], the statistics loop of
    [process_image] yields a mapping whose keys are exactly the labels that
    occur in [D]; each key is mapped to the number of its occurrences,
    which is at least one, so no key is present with count zero; and the
    counts add up to the length of [D]. *)
Theorem C3_class_stats_keys_counts_sum (D : list detection) :
  (forall k, is_Some (count_classes D !! k)
             <-> exists d, d ∈ D /\ Det.class d = k) /\
  (forall k v, count_classes D !! k = Some v
               -> v = Z.of_nat (occurrences k D) /\ 0 < v) /\
  sum_values (count_classes D) = Z.of_nat (length D).
Proof.
  split; [|split].
  - intros k. rewrite lookup_count_classes, <- occurrences_pos.
    case_decide as Hn; split.
    + intros [? ?]; done.
    + intros Hne; done.
    + done.
    + by eexists.
  - intros k v. rewrite lookup_count_classes.
    case_decide as Hn; [done|]. intros [= <-]. split; [done | lia].
  - unfold count_classes. rewrite sum_values_fold.
    unfold sum_values. rewrite map_fold_empty. lia.
Qed.

(** ** The detector adapter *)

Lemma fold_left_snoc_map {A B} (f : A -> B) (l : list A) (acc : list B) :
  fold_left (fun acc a => acc ++ [f a]) l acc = acc ++ map f l.
Proof.
  revert acc. induction l as [|a l IH]; intros acc; simpl.
  - by rewrite app_nil_r.
  - by rewrite IH, <- app_assoc.
Qed.

Lemma process_with_yolo_returns m image_path c w rs :
  predict m (uploads w) (call_args image_path c) = Ok rs ->
  process_with_yolo (Some m) image_path c w
  = (Ok (map (detection_of_box m) (raw_rows rs)),
     log (EvPredict (call_args image_path c)) w).
Proof.
  intros Hp. unfold process_with_yolo, bind, model_predict.
  fold (call_args image_path c). rewrite Hp.
  destruct rs as [|r0 rs]; [done|]. unfold raw_rows.
  destruct (boxes r0) as [[|b bs]|]; try done.
  unfold ret. by rewrite fold_left_snoc_map.
Qed.

Lemma process_with_yolo_raises m image_path c w e :
  predict m (uploads w) (call_args image_path c) = Raise e ->
  process_with_yolo (Some m) image_path c w
  = (Raise e, log (EvPredict (call_args image_path c)) w).
Proof.
  intros Hp. unfold process_with_yolo, bind, model_predict.
  fold (call_args image_path c). by rewrite Hp.
Qed.

Lemma process_with_yolo_trace model image_path c w :
  trace (snd (process_with_yolo model image_path c w))
  = match model with
    | Some _ => trace w ++ [EvPredict (call_args image_path c)]
    | None => trace w
    end.
Proof.
  destruct model as [m|]; [|done].
  destruct (predict m (uploads w) (call_args image_path c)) eqn:Hp.
  - by rewrite (process_with_yolo_returns _ _ _ _ _ Hp).
  - by rewrite (process_with_yolo_raises _ _ _ _ _ Hp).
Qed.

Lemma process_with_yolo_records model image_path c w ds w' :
  process_with_yolo model image_path c w = (Ok ds, w') ->
  exists m rs, model = Some m /\ ds = map (detection_of_box m) (raw_rows rs).
Proof.
  destruct model as [m|]; [|done].
  destruct (predict m (uploads w) (call_args image_path c)) as [rs|e] eqn:Hp.
  - rewrite (process_with_yolo_returns _ _ _ _ _ Hp). intros [= <- <-]. eauto.
  - by rewrite (process_with_yolo_raises _ _ _ _ _ Hp).
Qed.

(** C6. Whenever the model returns its rows, [process_with_yolo] returns
    one record per row, in order; the record of a row carries the class id
    of the row, the label of the table when the table has that id, and the
    synthesized label "class_<id>" when it has not, so that resolving a
    label never raises; a row of class 7 with no entry 7 in the table gets
    the label "class_7". *)
Theorem C6_label_fallback_never_fails m image_path c w rs :
  predict m (uploads w) (call_args image_path c) = Ok rs ->
  (exists ds,
     fst (process_with_yolo (Some m) image_path c w) = Ok ds /\
     Forall2
       (fun box d =>
          Det.class_id d = py_int (box_cls box) /\
          (forall n, names m !! Det.class_id d = Some n -> Det.class d = n) /\
          (names m !! Det.class_id d = None ->
           Det.class d = "class_" +:+ pretty (Det.class_id d)))
       (raw_rows rs) ds) /\
  (forall box, py_int (box_cls box) = 7 -> names m !! 7 = None ->
               Det.class (detection_of_box m box) = "class_7").
Proof.
  intros Hp. split.
  - eexists. rewrite (process_with_yolo_returns _ _ _ _ _ Hp). split; [done|].
    apply Forall2_fmap_r, Forall_Forall2_diag, Forall_forall.
    intros [[[[bx1 by1] bx2] by2] bc bk] _. unfold detection_of_box, dict_get.
    simpl. repeat split.
    + intros n Hn. by rewrite Hn.
    + intros Hn. by rewrite Hn.
  - intros [[[[bx1 by1] bx2] by2] bc bk] Hk Hn.
    unfold detection_of_box, dict_get. simpl in *. by rewrite Hk, Hn.
Qed.

Lemma C6_label_fallback_never_fails_witness :
  predict stub_model (uploads empty_world) (call_args "a.jpg" 0.25%Q)
  = Ok [mk_Results (Some [mk_Box (10, 0, 50, 40)%Q 0.9%Q 7%Q;
                          mk_Box (1, 2, 4, 8)%Q 0.125%Q 0%Q])]
  /\ (exists ds,
        fst (process_with_yolo (Some stub_model) "a.jpg" 0.25%Q empty_world)
        = Ok ds /\
        Forall2
          (fun box d =>
             Det.class_id d = py_int (box_cls box) /\
             (forall n, names stub_model !! Det.class_id d = Some n
                        -> Det.class d = n) /\
             (names stub_model !! Det.class_id d = None ->
              Det.class d = "class_" +:+ pretty (Det.class_id d)))
          [mk_Box (10, 0, 50, 40)%Q 0.9%Q 7%Q; mk_Box (1, 2, 4, 8)%Q 0.125%Q 0%Q]
          ds).
Proof.
  split; [reflexivity|].
  exact (proj1 (C6_label_fallback_never_fails stub_model "a.jpg" 0.25%Q
                  empty_world _ eq_refl)).
Defined.

(** C9, as the code has it. In every record returned by
    [process_with_yolo] the centre and the size are the expressions of the
    corners computed on float32 scalars: x is the float32 sum of x1 and x2
    halved in float32, y likewise, width is the float32 difference of x2
    and x1 and height that of y2 and y1, each widened by [float].  A finite
    result is as close to the exact value as one float32 rounding leaves
    it, so the fields equal (x1+x2)/2, (y1+y2)/2, x2-x1 and y2-y1 where
    these are float32 numbers, and need not elsewhere. *)
Theorem C9_centre_and_size_rounded_to_float32 model image_path c w ds w' :
  process_with_yolo model image_path c w = (Ok ds, w') ->
  Forall
    (fun d =>
       Det.x d = np_half (np_add (Det.x1 d) (Det.x2 d)) /\
       Det.y d = np_half (np_add (Det.y1 d) (Det.y2 d)) /\
       Det.width d = np_sub (Det.x2 d) (Det.x1 d) /\
       Det.height d = np_sub (Det.y2 d) (Det.y1 d) /\
       (forall v, Det.width d = Finite v ->
                  float32_close v (Det.x2 d - Det.x1 d)) /\
       (forall v, Det.height d = Finite v ->
                  float32_close v (Det.y2 d - Det.y1 d)) /\
       (forall v, Det.x d = Finite v ->
          exists s, np_add (Det.x1 d) (Det.x2 d) = Finite s /\
                    float32_close s (Det.x1 d + Det.x2 d) /\
                    float32_close v (s / 2)) /\
       (forall v, Det.y d = Finite v ->
          exists s, np_add (Det.y1 d) (Det.y2 d) = Finite s /\
                    float32_close s (Det.y1 d + Det.y2 d) /\
                    float32_close v (s / 2)))
    ds.
Proof.
  intros Hrun. apply process_with_yolo_records in Hrun as (m & rs & _ & ->).
  apply Forall_fmap, Forall_forall.
  intros [[[[bx1 by1] bx2] by2] bc bk] _. unfold detection_of_box.
  cbn [box_xyxy box_conf box_cls Det.x Det.y Det.width Det.height
       Det.x1 Det.y1 Det.x2 Det.y2].
  do 4 (split; [reflexivity|]).
  split; [intros v; apply round_to_float32_close|].
  split; [intros v; apply round_to_float32_close|].
  split; intros v Hv; destruct (np_half_close _ _ Hv) as (s & Hs & Hc);
    exists s; (split; [done|]); (split; [by apply round_to_float32_close | done]).
Qed.

Lemma C9_centre_and_size_rounded_to_float32_witness :
  process_with_yolo (Some float32_model) "a.jpg" 0.25%Q empty_world
  = (Ok [detection_of_box float32_model float32_row],
     log (EvPredict (call_args "a.jpg" 0.25%Q)) empty_world)
  /\ Forall
       (fun d =>
          Det.x d = np_half (np_add (Det.x1 d) (Det.x2 d)) /\
          Det.y d = np_half (np_add (Det.y1 d) (Det.y2 d)) /\
          Det.width d = np_sub (Det.x2 d) (Det.x1 d) /\
          Det.height d = np_sub (Det.y2 d) (Det.y1 d) /\
          (forall v, Det.width d = Finite v ->
                     float32_close v (Det.x2 d - Det.x1 d)) /\
          (forall v, Det.height d = Finite v ->
                     float32_close v (Det.y2 d - Det.y1 d)) /\
          (forall v, Det.x d = Finite v ->
             exists s, np_add (Det.x1 d) (Det.x2 d) = Finite s /\
                       float32_close s (Det.x1 d + Det.x2 d) /\
                       float32_close v (s / 2)) /\
          (forall v, Det.y d = Finite v ->
             exists s, np_add (Det.y1 d) (Det.y2 d) = Finite s /\
                       float32_close s (Det.y1 d + Det.y2 d) /\
                       float32_close v (s / 2)))
       [detection_of_box float32_model float32_row].
Proof.
  split; [reflexivity|].
  apply (C9_centre_and_size_rounded_to_float32 (Some float32_model) "a.jpg"
           0.25%Q empty_world _
           (log (EvPredict (call_args "a.jpg" 0.25%Q)) empty_world)).
  reflexivity.
Defined.

(** C9, as stated, fails: for the row whose corners are the float32
    numbers nearest to 100.3, 50.7, 200.9 and 120.2, the record has
    x = 4934861/32768 where (x1+x2)/2 = 19739443/131072, and
    height = 139/2 where y2-y1 = 18219007/262144. *)
Lemma C9_centre_is_not_the_exact_mean :
  exists d,
    fst (process_with_yolo (Some float32_model) "a.jpg" 0.25%Q empty_world)
    = Ok [d] /\
    (Det.x1 d, Det.y1 d, Det.x2 d, Det.y2 d)
    = (6573261 # 65536, 13290701 # 262144, 6583091 # 32768, 7877427 # 65536)%Q /\
    Det.x d = Finite (4934861 # 32768) /\
    ((Det.x1 d + Det.x2 d) / 2 == 19739443 # 131072)%Q /\
    ~ (4934861 # 32768 == (Det.x1 d + Det.x2 d) / 2)%Q /\
    Det.height d = Finite (139 # 2) /\
    ~ (139 # 2 == Det.y2 d - Det.y1 d)%Q.
Proof.
  exists (detection_of_box float32_model float32_row).
  split; [reflexivity|]. split; [reflexivity|].
  split; [vm_compute; reflexivity|]. split; [reflexivity|].
  split; [intros H; vm_compute in H; discriminate|].
  split; [vm_compute; reflexivity|].
  intros H; vm_compute in H; discriminate.
Qed.

(** ** The renderer *)

Lemma drew_live l evs w w' : drew l evs w w' -> is_Some (heap w' !! l).
Proof.
  intros [(a & a' & _ & _ & ->) _]. rewrite lookup_insert_eq. by eexists.
Qed.

Lemma drew_trans l e1 e2 w w1 w2 :
  drew l e1 w w1 -> drew l e2 w1 w2 -> drew l (e1 ++ e2) w w2.
Proof.
  intros [(a & a1 & Ha & Hs1 & Hh1) (Ht1 & Hu1 & Hr1 & Hi1 & Hk1)]
         [(b & a2 & Hb & Hs2 & Hh2) (Ht2 & Hu2 & Hr2 & Hi2 & Hk2)].
  rewrite Hh1, lookup_insert_eq in Hb. injection Hb as <-.
  split; [exists a, a2; repeat split; [done | congruence |] |].
  - by rewrite Hh2, Hh1, insert_insert_eq.
  - repeat split; try congruence. by rewrite Ht2, Ht1, app_assoc.
Qed.

Lemma draws_ret l : draws l [] (ret tt).
Proof.
  intros w [a Ha]. exists w. split; [done|].
  split; [exists a, a; by rewrite insert_id | by rewrite app_nil_r].
Qed.

Lemma draws_seq l e1 e2 (m k : M unit) :
  draws l e1 m -> draws l e2 k -> draws l (e1 ++ e2) (m ;;; k).
Proof.
  intros Hm Hk w Hl. destruct (Hm w Hl) as (w1 & Hrun1 & Hd1).
  destruct (Hk w1 (drew_live _ _ _ _ Hd1)) as (w2 & Hrun2 & Hd2).
  exists w2. unfold bind. rewrite Hrun1. eauto using drew_trans.
Qed.

Section RendererProperties.

Context (P : platform).

Lemma draws_rectangle l pt1 pt2 c thickness :
  draws l [EvRectangle l pt1 pt2 c thickness]
    (cv2_rectangle P l pt1 pt2 c thickness).
Proof.
  intros w [a Ha]. unfold cv2_rectangle. rewrite Ha.
  eexists. split; [reflexivity|].
  split; [|done].
  by exists a, (mk_ndarray (shape a)
                 (rectangle_px P (shape a) pt1 pt2 c thickness (pixel a))).
Qed.

Lemma draws_putText l text org font font_scale c thickness :
  draws l [EvPutText l text org font font_scale c thickness]
    (cv2_putText P l text org font font_scale c thickness).
Proof.
  intros w [a Ha]. unfold cv2_putText. rewrite Ha.
  eexists. split; [reflexivity|].
  split; [|done].
  by exists a, (mk_ndarray (shape a)
                 (putText_px P (shape a) text org font font_scale c thickness
                    (pixel a))).
Qed.

Lemma draws_detection l d :
  draws l (detection_events P l d) (draw_detection P l d).
Proof.
  unfold draw_detection, detection_events.
  destruct (getTextSize P _ _ _ _) as [[tw th] bl] eqn:Hsize. simpl fst. simpl snd.
  apply (draws_seq l [_] [_; _]); [apply draws_rectangle|].
  apply (draws_seq l [_] [_]); [apply draws_rectangle | apply draws_putText].
Qed.

Lemma draws_for_each l (D : list detection) :
  draws l (flat_map (detection_events P l) D) (for_each D (draw_detection P l)).
Proof.
  induction D as [|d D IH].
  - apply draws_ret.
  - apply (draws_seq l (detection_events P l d) (flat_map (detection_events P l) D));
      [apply draws_detection | apply IH].
Qed.

(** What one call of [draw_predictions] does to the world. *)
Lemma draw_predictions_returns image (D : list detection) w a :
  heap w !! image = Some a ->
  exists annotated w' a',
    draw_predictions P image D w = (Ok annotated, w') /\
    annotated ≠ image /\
    heap w !! annotated = None /\
    heap w' = <[annotated := a']> (heap w) /\
    shape a' = shape a /\
    (D = [] -> a' = a) /\
    trace w' = trace w ++ flat_map (detection_events P annotated) D /\
    uploads w' = uploads w /\ results w' = results w /\
    uuids w' = uuids w /\ ticks w' = ticks w.
Proof.
  intros Ha. set (l := fresh (dom (heap w))).
  assert (Hl : heap w !! l = None)
    by (apply not_elem_of_dom, is_fresh).
  assert (Hne : l ≠ image) by congruence.
  set (w0 := set_heap (insert l a) w).
  assert (Hcopy : heap w0 !! l = Some a) by apply lookup_insert_eq.
  destruct D as [|d D].
  - exists l, w0, a. unfold draw_predictions, bind, ndarray_copy, ndarray_shape.
    rewrite Ha. fold l. fold w0. rewrite Hcopy. destruct (shape a).
    simpl. rewrite app_nil_r. by repeat split.
  - destruct (draws_for_each l (d :: D) w0 (ex_intro _ a Hcopy))
      as (w' & Hrun & (b & a' & Hb & Hs & Hh) & Ht & Hu & Hr & Hi & Hk).
    rewrite Hcopy in Hb. injection Hb as <-.
    exists l, w', a'.
    unfold draw_predictions, bind, ndarray_copy, ndarray_shape.
    rewrite Ha. fold l. fold w0. rewrite Hcopy.
    destruct (shape a) as [height width] eqn:Hsa.
    rewrite Hrun. repeat split; try done.
    rewrite Hh. apply insert_insert_eq.
Qed.

End RendererProperties.

Section RenderingClaims.

Context (P : platform).

(** C4. Rendering an empty detection list returns a fresh array that is
    equal, shape and pixels, to the source image, and rendering returns an
    image for every detection list. *)
Theorem C4_render_empty_is_copy_and_render_total image w a :
  heap w !! image = Some a ->
  (exists annotated w',
     draw_predictions P image [] w = (Ok annotated, w') /\
     annotated ≠ image /\
     heap w' !! annotated = Some a /\
     heap w' !! image = Some a) /\
  (forall D : list detection,
     exists annotated w', draw_predictions P image D w = (Ok annotated, w')).
Proof.
  intros Ha. split.
  - destruct (draw_predictions_returns P image [] w a Ha)
      as (l & w' & a' & Hrun & Hne & _ & Hh & _ & Hnil & _).
    exists l, w'. rewrite Hh, (Hnil eq_refl), lookup_insert_eq.
    by rewrite lookup_insert_ne.
  - intros D. destruct (draw_predictions_returns P image D w a Ha)
      as (l & w' & _ & Hrun & _). eauto.
Qed.

(** C5. Whatever the detection list, [draw_predictions] leaves the source
    array as it was, and every other array that existed; what it returns
    is a new reference, distinct from the source, to an array of the shape
    of the source. *)
Theorem C5_render_never_mutates_source image (D : list detection) w a :
  heap w !! image = Some a ->
  exists annotated w' a',
    draw_predictions P image D w = (Ok annotated, w') /\
    heap w' !! image = Some a /\
    annotated ≠ image /\
    heap w !! annotated = None /\
    heap w' !! annotated = Some a' /\
    shape a' = shape a /\
    (forall l, l ≠ annotated -> heap w' !! l = heap w !! l).
Proof.
  intros Ha. destruct (draw_predictions_returns P image D w a Ha)
    as (l & w' & a' & Hrun & Hne & Hfresh & Hh & Hs & _).
  exists l, w', a'. rewrite Hh, lookup_insert_eq.
  repeat split; try done.
  - by rewrite lookup_insert_ne.
  - intros l' Hl'. by rewrite lookup_insert_ne.
Qed.

End RenderingClaims.

Lemma C4_render_empty_is_copy_and_render_total_witness :
  heap studio !! 1%positive = Some stub_image /\
  ((exists annotated w',
      draw_predictions stub_platform 1%positive [] studio = (Ok annotated, w') /\
      annotated ≠ 1%positive /\
      heap w' !! annotated = Some stub_image /\
      heap w' !! 1%positive = Some stub_image) /\
   (forall D : list detection,
      exists annotated w',
        draw_predictions stub_platform 1%positive D studio = (Ok annotated, w'))).
Proof.
  split; [reflexivity|].
  apply (C4_render_empty_is_copy_and_render_total stub_platform 1%positive
           studio stub_image).
  reflexivity.
Defined.

Lemma C5_render_never_mutates_source_witness :
  heap studio !! 1%positive = Some stub_image /\
  (exists annotated w' a',
     draw_predictions stub_platform 1%positive two_detections studio
     = (Ok annotated, w') /\
     heap w' !! 1%positive = Some stub_image /\
     annotated ≠ 1%positive /\
     heap studio !! annotated = None /\
     heap w' !! annotated = Some a' /\
     shape a' = shape stub_image /\
     (forall l, l ≠ annotated -> heap w' !! l = heap studio !! l)).
Proof.
  split; [reflexivity|].
  apply (C5_render_never_mutates_source stub_platform 1%positive two_detections
           studio stub_image).
  reflexivity.
Defined.

(** ** What is drawn for each detection *)

Example format_percent0_examples :
  format_percent0 0.9 = "90%" /\ format_percent0 0.125 = "12%" /\
  format_percent0 0.875 = "88%" /\ format_percent0 1 = "100%" /\
  format_percent0 0.256 = "26%" /\ format_percent0 0 = "0%".
Proof. repeat split; vm_compute; reflexivity. Qed.

Section DrawnClaims.

Context (P : platform).

Lemma detection_events_at l (D : list detection) i d j :
  D !! i = Some d -> (j < 3)%nat ->
  flat_map (detection_events P l) D !! (3 * i + j)%nat
  = detection_events P l d !! j.
Proof.
  revert i. induction D as [|d0 D IH]; intros i Hi Hj; [done|].
  change (flat_map (detection_events P l) (d0 :: D))
    with (detection_events P l d0 ++ flat_map (detection_events P l) D).
  destruct i as [|i]; simpl in Hi.
  - injection Hi as ->. by rewrite lookup_app_l by (simpl; lia).
  - rewrite lookup_app_r by (simpl; lia).
    replace (3 * S i + j - length (detection_events P l d0))%nat
      with (3 * i + j)%nat by (simpl; lia).
    by apply IH.
Qed.

(** C7. For every detection of the list, in order, the renderer draws the
    box and the label background in one colour, found in [COLORS] under
    the label when the label is a key, else under the class id when the id
    is a key, else white (255, 255, 255); finding it never raises. *)
Theorem C7_colour_by_label_then_id_then_default image (D : list detection) w a :
  heap w !! image = Some a ->
  exists annotated w' evs,
    draw_predictions P image D w = (Ok annotated, w') /\
    trace w' = trace w ++ evs /\
    forall i d, D !! i = Some d ->
      exists c thickness pt1 pt2,
        evs !! (3 * i)%nat
        = Some (EvRectangle annotated
                  (py_int (Det.x1 d), py_int (Det.y1 d))
                  (py_int (Det.x2 d), py_int (Det.y2 d)) c thickness) /\
        evs !! (3 * i + 1)%nat = Some (EvRectangle annotated pt1 pt2 c (-1)) /\
        match COLORS !! inl (Det.class d), COLORS !! inr (Det.class_id d) with
        | Some by_label, _ => c = by_label
        | None, Some by_id => c = by_id
        | None, None => c = (255, 255, 255)
        end.
Proof.
  intros Ha. destruct (draw_predictions_returns P image D w a Ha)
    as (l & w' & a' & Hrun & _ & _ & _ & _ & _ & Ht & _).
  exists l, w', (flat_map (detection_events P l) D).
  split; [done|]. split; [done|]. intros i d Hd.
  pose proof (detection_events_at l D i d 0 Hd ltac:(lia)) as H0.
  pose proof (detection_events_at l D i d 1 Hd ltac:(lia)) as H1.
  rewrite Nat.add_0_r in H0. rewrite H0, H1.
  do 4 eexists. split; [reflexivity|]. split; [reflexivity|].
  unfold dict_get. repeat case_match; congruence.
Qed.

(** C8. For every detection of the list, in order, the renderer fills a
    rectangle (thickness -1) whose lower edge is the top edge y1 of the box
    and whose upper edge is [top], then writes the label
    "<class> <confidence as a whole percentage>%" at (x1, y1 - 5).  [top]
    is never negative; it is 0 whenever y1 is at most the height of the
    text plus 10, hence whenever the top edge of the box is within the
    height of the label of the top border, y1 = 0 included; otherwise it is
    y1 minus the height of the text minus 10. *)
Theorem C8_label_text_and_clamped_background image (D : list detection) w a :
  heap w !! image = Some a ->
  exists annotated w' evs,
    draw_predictions P image D w = (Ok annotated, w') /\
    trace w' = trace w ++ evs /\
    forall i d, D !! i = Some d ->
      let x1 := py_int (Det.x1 d) in
      let y1 := py_int (Det.y1 d) in
      let label := Det.class d +:+ " " +:+ format_percent0 (Det.confidence d) in
      exists text_width text_height baseline top c,
        getTextSize P label FONT_HERSHEY_SIMPLEX 0.6%Q 2
        = ((text_width, text_height), baseline) /\
        evs !! (3 * i + 1)%nat
        = Some (EvRectangle annotated (x1, top) (x1 + text_width, y1) c (-1)) /\
        evs !! (3 * i + 2)%nat
        = Some (EvPutText annotated label (x1, y1 - 5) FONT_HERSHEY_SIMPLEX
                  0.6%Q (255, 255, 255) 2) /\
        0 <= top /\
        (y1 <= text_height + 10 -> top = 0) /\
        (y1 <= text_height -> 0 <= text_height -> top = 0) /\
        (text_height + 10 <= y1 -> top = y1 - text_height - 10).
Proof.
  intros Ha. destruct (draw_predictions_returns P image D w a Ha)
    as (l & w' & a' & Hrun & _ & _ & _ & _ & _ & Ht & _).
  exists l, w', (flat_map (detection_events P l) D).
  split; [done|]. split; [done|]. intros i d Hd x1 y1 label.
  pose proof (detection_events_at l D i d 1 Hd ltac:(lia)) as H1.
  pose proof (detection_events_at l D i d 2 Hd ltac:(lia)) as H2.
  rewrite H1, H2. unfold detection_events. fold x1 y1 label.
  destruct (getTextSize P label FONT_HERSHEY_SIMPLEX 0.6%Q 2)
    as [[tw th] bl] eqn:Hsize.
  exists tw, th, bl, (Z.max 0 (y1 - th - 10)). eexists.
  split; [reflexivity|]. split; [reflexivity|]. split; [reflexivity|].
  repeat split; lia.
Qed.

End DrawnClaims.

Lemma C7_colour_by_label_then_id_then_default_witness :
  heap studio !! 1%positive = Some stub_image /\
  (exists annotated w' evs,
     draw_predictions stub_platform 1%positive two_detections studio
     = (Ok annotated, w') /\
     trace w' = trace studio ++ evs /\
     forall i d, two_detections !! i = Some d ->
       exists c thickness pt1 pt2,
         evs !! (3 * i)%nat
         = Some (EvRectangle annotated
                   (py_int (Det.x1 d), py_int (Det.y1 d))
                   (py_int (Det.x2 d), py_int (Det.y2 d)) c thickness) /\
         evs !! (3 * i + 1)%nat = Some (EvRectangle annotated pt1 pt2 c (-1)) /\
         match COLORS !! inl (Det.class d), COLORS !! inr (Det.class_id d) with
         | Some by_label, _ => c = by_label
         | None, Some by_id => c = by_id
         | None, None => c = (255, 255, 255)
         end).
Proof.
  split; [reflexivity|].
  apply (C7_colour_by_label_then_id_then_default stub_platform 1%positive
           two_detections studio stub_image).
  reflexivity.
Defined.

Lemma C8_label_text_and_clamped_background_witness :
  heap studio !! 1%positive = Some stub_image /\
  (exists annotated w' evs,
     draw_predictions stub_platform 1%positive two_detections studio
     = (Ok annotated, w') /\
     trace w' = trace studio ++ evs /\
     forall i d, two_detections !! i = Some d ->
       let x1 := py_int (Det.x1 d) in
       let y1 := py_int (Det.y1 d) in
       let label := Det.class d +:+ " " +:+ format_percent0 (Det.confidence d) in
       exists text_width text_height baseline top c,
         getTextSize stub_platform label FONT_HERSHEY_SIMPLEX 0.6%Q 2
         = ((text_width, text_height), baseline) /\
         evs !! (3 * i + 1)%nat
         = Some (EvRectangle annotated (x1, top) (x1 + text_width, y1) c (-1)) /\
         evs !! (3 * i + 2)%nat
         = Some (EvPutText annotated label (x1, y1 - 5) FONT_HERSHEY_SIMPLEX
                   0.6%Q (255, 255, 255) 2) /\
         0 <= top /\
         (y1 <= text_height + 10 -> top = 0) /\
         (y1 <= text_height -> 0 <= text_height -> top = 0) /\
         (text_height + 10 <= y1 -> top = y1 - text_height - 10)).
Proof.
  split; [reflexivity|].
  apply (C8_label_text_and_clamped_background stub_platform 1%positive
           two_detections studio stub_image).
  reflexivity.
Defined.

(** The calls made for the first stub record, whose box touches the top
    border (y1 = 0): white, as neither "class_7" nor 7 is a key of
    [COLORS], and a label background that starts at y = 0. *)
Example drawn_for_class_7 :
  detection_events stub_platform 2%positive
    (detection_of_box stub_model (mk_Box (10, 0, 50, 40)%Q 0.9%Q 7%Q))
  = [ EvRectangle 2%positive (10, 0) (50, 40) (255, 255, 255) 3;
      EvRectangle 2%positive (10, 0) (131, 0) (255, 255, 255) (-1);
      EvPutText 2%positive "class_7 90%" (10, -5) 0 0.6%Q (255, 255, 255) 2 ].
Proof. vm_compute. reflexivity. Qed.

(** ** The endpoint *)

Section EndpointClaims.

Context (P : platform).

(** C10. When the model was never loaded, [process_image] raises the 503
    error before anything else than reading the clock: the upload is not
    read, no file is written in either directory, no array is allocated,
    no identifier is drawn and no library call is made. *)
Theorem C10_model_unavailable_leaves_state (file : UploadFile) (confidence : Q) w :
  exists w',
    process_image P None file confidence w
    = (Raise (HTTPException 503 "Модель YOLO не загружена"), w') /\
    uploads w' = uploads w /\
    results w' = results w /\
    heap w' = heap w /\
    trace w' = trace w /\
    uuids w' = uuids w.
Proof. exists (next_tick w). by repeat split. Qed.

(** C2. An upload whose content does not decode makes [process_image]
    raise the 400 error inside its [try], which the [except Exception]
    clause catches and raises again as a 500 error; the upload has been
    stored under UPLOAD_DIR, and nothing is stored under RESULT_DIR. *)
Theorem C2_undecodable_upload_answered_500 m (file : UploadFile) fn
    (confidence : Q) w :
  filename file = Some fn ->
  imdecode P (content file) = None ->
  exists w' stored_as,
    process_image P (Some m) file confidence w
    = (Raise (HTTPException 500
                ("Ошибка обработки: " +:+
                 exn_str P (HTTPException 400 "Не удалось загрузить изображение"))),
       w') /\
    uploads w' = <[stored_as := content file]> (uploads w) /\
    results w' = results w /\
    trace w' = trace w ++ [EvFileRead fn; EvOpenWrite stored_as; EvImread stored_as].
Proof.
  intros Hfn Hdec.
  unfold process_image, bind, try_except, time_time, filename_extension.
  rewrite Hfn. unfold ret, uuid4, file_read, bind, emit, write_upload, cv2_imread.
  simpl. rewrite lookup_insert_eq, Hdec, Hfn. simpl.
  eexists _, _. split; [reflexivity|]. simpl.
  split; [reflexivity|]. split; [reflexivity|].
  by rewrite <- !app_assoc.
Qed.

Lemma detection_events_not_predict l (D : list detection) :
  Forall (fun ev => is_predict ev = false) (flat_map (detection_events P l) D).
Proof.
  induction D as [|d D IH]; [constructor|].
  change (flat_map (detection_events P l) (d :: D))
    with (detection_events P l d ++ flat_map (detection_events P l) D).
  apply Forall_app. split; [|done]. by repeat constructor.
Qed.

Local Arguments process_with_yolo : simpl never.
Local Arguments draw_predictions : simpl never.

Lemma process_image_trace m (file : UploadFile) fn (confidence : Q) w img :
  filename file = Some fn ->
  imdecode P (content file) = Some img ->
  exists stored_as rest,
    trace (snd (process_image P (Some m) file confidence w))
    = trace w ++ [EvFileRead fn; EvOpenWrite stored_as; EvImread stored_as;
                  EvPredict (call_args (upload_path stored_as) confidence)]
              ++ rest /\
    Forall (fun ev => is_predict ev = false) rest.
Proof.
  intros Hfn Hdec.
  unfold process_image, bind, try_except, time_time, filename_extension.
  rewrite Hfn. unfold ret, uuid4, file_read, bind, emit, write_upload, cv2_imread.
  simpl. rewrite lookup_insert_eq, Hdec, Hfn. unfold ndarray_shape. simpl.
  rewrite lookup_insert_eq. destruct (shape img) as [height width] eqn:Hshape.
  match goal with
  | |- context [process_with_yolo _ ?p ?c ?w1] =>
      destruct (predict m (uploads w1) (call_args p c)) as [rs|e] eqn:Hp;
      [ rewrite (process_with_yolo_returns m p c w1 rs Hp)
      | rewrite (process_with_yolo_raises m p c w1 e Hp) ]
  end.
  - match goal with
    | |- context [draw_predictions P ?l ?D ?w1] =>
        destruct (draw_predictions_returns P l D w1 img)
          as (l2 & w2 & a2 & Hrun & _ & _ & Hh & _ & _ & Ht & _);
        [ apply lookup_insert_eq | rewrite Hrun ]
    end.
    unfold cv2_imwrite. rewrite Hh, lookup_insert_eq.
    eexists _, (flat_map (detection_events P l2) _ ++ [EvImwrite _]).
    split.
    + destruct (imencode P _ a2) as [[b|]|e]; simpl; rewrite Ht; simpl;
        rewrite <- !app_assoc; reflexivity.
    + apply Forall_app. split; [apply detection_events_not_predict|].
      by repeat constructor.
  - simpl. eexists _, []. split; [|constructor].
    rewrite <- !app_assoc. reflexivity.
Qed.

(** What a successful answer of [process_image] holds: the statistics are
    those of the loop over the detections it returns. *)
Lemma process_image_response model (file : UploadFile) (c : Q) w r w' :
  process_image P model file c w = (Ok r, w') ->
  Response.class_stats r = count_classes (Response.detections r) /\
  Response.total_detections r = Z.of_nat (length (Response.detections r)) /\
  Response.confidence_threshold r = c /\
  Response.result_image r = "result_" +:+ Response.original_image r.
Proof.
  unfold process_image, bind, try_except, raise, ret. intros H.
  repeat (case_match; simplify_eq); try done.
Qed.

(** C1, as the code has it. No range check is made on the confidence
    threshold.  Whatever its value, in (0, 1] or not, [process_with_yolo]
    calls the detection capability exactly once, with [conf] equal to the
    threshold it was given; and [process_image], once the upload has been
    decoded, makes exactly one call of the capability, with [conf] equal
    to its [confidence] parameter. *)
Theorem C1_threshold_forwarded_unchanged (c : Q) :
  (forall m image_path w,
     trace (snd (process_with_yolo (Some m) image_path c w))
     = trace w ++ [EvPredict (call_args image_path c)] /\
     conf (call_args image_path c) = c) /\
  (forall m (file : UploadFile) fn w img,
     filename file = Some fn ->
     imdecode P (content file) = Some img ->
     exists stored_as rest,
       trace (snd (process_image P (Some m) file c w))
       = trace w ++ [EvFileRead fn; EvOpenWrite stored_as; EvImread stored_as;
                     EvPredict (call_args (upload_path stored_as) c)]
                 ++ rest /\
       conf (call_args (upload_path stored_as) c) = c /\
       Forall (fun ev => is_predict ev = false) rest).
Proof.
  split.
  - intros m image_path w. by rewrite process_with_yolo_trace.
  - intros m file fn w img Hfn Hdec.
    destruct (process_image_trace m file fn c w img Hfn Hdec)
      as (stored_as & rest & Ht & Hrest).
    by exists stored_as, rest.
Qed.

End EndpointClaims.

Lemma C2_undecodable_upload_answered_500_witness :
  filename text_upload = Some "notes.txt" /\
  imdecode stub_platform (content text_upload) = None /\
  (exists w' stored_as,
     process_image stub_platform (Some stub_model) text_upload 0.25%Q empty_world
     = (Raise (HTTPException 500
                 ("Ошибка обработки: " +:+
                  exn_str stub_platform
                    (HTTPException 400 "Не удалось загрузить изображение"))),
        w') /\
     uploads w' = <[stored_as := content text_upload]> (uploads empty_world) /\
     results w' = results empty_world /\
     trace w' = trace empty_world
                ++ [EvFileRead "notes.txt"; EvOpenWrite stored_as;
                    EvImread stored_as]).
Proof.
  split; [reflexivity|]. split; [reflexivity|].
  apply (C2_undecodable_upload_answered_500 stub_platform stub_model text_upload
           "notes.txt" 0.25%Q empty_world); reflexivity.
Defined.

Lemma C1_threshold_forwarded_unchanged_witness :
  filename png_upload = Some "a.png" /\
  imdecode stub_platform (content png_upload) = Some stub_image /\
  (exists stored_as rest,
     trace (snd (process_image stub_platform (Some stub_model) png_upload 0%Q
                   empty_world))
     = trace empty_world
       ++ [EvFileRead "a.png"; EvOpenWrite stored_as; EvImread stored_as;
           EvPredict (call_args (upload_path stored_as) 0%Q)]
       ++ rest /\
     conf (call_args (upload_path stored_as) 0%Q) = 0%Q /\
     Forall (fun ev => is_predict ev = false) rest).
Proof.
  split; [reflexivity|]. split; [reflexivity|].
  apply (proj2 (C1_threshold_forwarded_unchanged stub_platform 0%Q) stub_model
           png_upload "a.png" empty_world stub_image); reflexivity.
Defined.

(** C1, as stated, fails: with threshold 0, which is outside (0, 1],
    [process_with_yolo] is not rejected, it returns the records of the
    model, and the detection capability has been called with [conf] = 0;
    the same holds of [process_image]. *)
Lemma C1_threshold_outside_range_reaches_model :
  (exists ds a,
     fst (process_with_yolo (Some stub_model) "a.jpg" 0%Q empty_world) = Ok ds /\
     EvPredict a
       ∈ trace (snd (process_with_yolo (Some stub_model) "a.jpg" 0%Q empty_world)) /\
     conf a = 0%Q /\
     ~ (0 < conf a /\ conf a <= 1)%Q) /\
  (exists r a,
     fst (process_image stub_platform (Some stub_model) png_upload 0%Q empty_world)
     = Ok r /\
     Response.confidence_threshold r = 0%Q /\
     EvPredict a
       ∈ trace (snd (process_image stub_platform (Some stub_model) png_upload
                       0%Q empty_world)) /\
     conf a = 0%Q /\
     ~ (0 < conf a /\ conf a <= 1)%Q).
Proof.
  split.
  - eexists _, (call_args "a.jpg" 0%Q). split; [reflexivity|].
    split; [rewrite process_with_yolo_trace; set_solver|].
    split; [reflexivity|]. intros [H _]. by apply Qlt_irrefl in H.
  - eexists _, (call_args (upload_path "uuid0.jpg") 0%Q).
    split; [vm_compute; reflexivity|]. split; [reflexivity|].
    split.
    + apply list_elem_of_lookup. exists 3%nat. vm_compute. reflexivity.
    + split; [reflexivity|]. intros [H _]. by apply Qlt_irrefl in H.
Qed.

(** * Further properties *)

(** ** The detector adapter, continued *)

(** X1. When [process_with_yolo] does not return records: with no model it
    raises the ValueError without calling anything and leaves the world as
    it was; when the model raises, that very exception comes out, after
    exactly one call of the model, and only the trace has changed. *)
Theorem process_with_yolo_failures image_path (c : Q) w :
  process_with_yolo None image_path c w
  = (Raise (ValueError "Модель не загружена"), w) /\
  (forall m e,
     predict m (uploads w) (call_args image_path c) = Raise e ->
     exists w',
       process_with_yolo (Some m) image_path c w = (Raise e, w') /\
       trace w' = trace w ++ [EvPredict (call_args image_path c)] /\
       uploads w' = uploads w /\ results w' = results w /\
       heap w' = heap w /\ uuids w' = uuids w /\ ticks w' = ticks w).
Proof.
  split; [reflexivity|]. intros m e Hp.
  rewrite (process_with_yolo_raises _ _ _ _ _ Hp). by eexists.
Qed.

Lemma process_with_yolo_failures_witness :
  predict failing_model (uploads empty_world) (call_args "a.jpg" 0.25%Q)
  = Raise (InferenceError "corrupt image") /\
  (exists w',
     process_with_yolo (Some failing_model) "a.jpg" 0.25%Q empty_world
     = (Raise (InferenceError "corrupt image"), w') /\
     trace w' = trace empty_world ++ [EvPredict (call_args "a.jpg" 0.25%Q)] /\
     uploads w' = uploads empty_world /\ results w' = results empty_world /\
     heap w' = heap empty_world /\ uuids w' = uuids empty_world /\
     ticks w' = ticks empty_world).
Proof.
  split; [reflexivity|].
  apply (proj2 (process_with_yolo_failures "a.jpg" 0.25%Q empty_world)
           failing_model (InferenceError "corrupt image")).
  reflexivity.
Defined.

(** X2. [process_with_yolo] reads the first element of the model's results
    only: it returns one record per row of that element's boxes, in the
    order of the rows, each with the confidence and the corners of its row;
    it returns the empty list when the results are empty or the boxes are
    [None] or empty; whatever follows the first element is ignored.  It
    leaves files, heap and counters as they were. *)
Theorem process_with_yolo_one_record_per_row m image_path (c : Q) w rs :
  predict m (uploads w) (call_args image_path c) = Ok rs ->
  exists ds w',
    process_with_yolo (Some m) image_path c w = (Ok ds, w') /\
    (rs = [] -> ds = []) /\
    (forall r0 rest, rs = r0 :: rest ->
       let rows := match boxes r0 with Some bs => bs | None => [] end in
       length ds = length rows /\
       forall i box, rows !! i = Some box ->
         exists d, ds !! i = Some d /\
                   Det.confidence d = box_conf box /\
                   (Det.x1 d, Det.y1 d, Det.x2 d, Det.y2 d) = box_xyxy box /\
                   Det.class_id d = py_int (box_cls box)) /\
    uploads w' = uploads w /\ results w' = results w /\
    heap w' = heap w /\ uuids w' = uuids w /\ ticks w' = ticks w.
Proof.
  intros Hp. rewrite (process_with_yolo_returns _ _ _ _ _ Hp).
  eexists _, _. split; [reflexivity|]. split; [by intros ->|].
  split; [|done]. intros r0 rest -> rows. unfold raw_rows.
  replace (default [] (boxes r0)) with rows by (unfold rows; by destruct (boxes r0)).
  split; [by rewrite length_map|]. intros i box Hi.
  exists (detection_of_box m box). split.
  - by rewrite list_lookup_fmap, Hi.
  - by destruct box as [[[[bx1 by1] bx2] by2] bc bk].
Qed.

Lemma process_with_yolo_one_record_per_row_witness :
  predict stub_model (uploads empty_world) (call_args "a.jpg" 0.25%Q)
  = Ok [mk_Results (Some [mk_Box (10, 0, 50, 40)%Q 0.9%Q 7%Q;
                          mk_Box (1, 2, 4, 8)%Q 0.125%Q 0%Q])] /\
  (exists ds w',
     process_with_yolo (Some stub_model) "a.jpg" 0.25%Q empty_world = (Ok ds, w')).
Proof.
  split; [reflexivity|].
  destruct (process_with_yolo_one_record_per_row stub_model "a.jpg" 0.25%Q
              empty_world _ eq_refl) as (ds & w' & Hrun & _).
  by exists ds, w'.
Defined.

(** X3. A row whose corners are ordered (x1 <= x2 and y1 <= y2) gives a
    record whose width and height are never negative: each is a finite
    number that is not negative, or the positive infinity of a float32
    overflow. *)
Theorem detection_of_box_size_not_negative m box :
  let d := detection_of_box m box in
  (Det.x1 d <= Det.x2 d)%Q -> (Det.y1 d <= Det.y2 d)%Q ->
  match Det.width d with
  | Finite v => (0 <= v)%Q
  | Infinite negative => negative = false
  end /\
  match Det.height d with
  | Finite v => (0 <= v)%Q
  | Infinite negative => negative = false
  end.
Proof.
  destruct box as [[[[bx1 by1] bx2] by2] bc bk]. unfold detection_of_box.
  cbn [box_xyxy box_conf box_cls Det.width Det.height
       Det.x1 Det.y1 Det.x2 Det.y2].
  intros Hx Hy. split; apply round_to_binary_sign; lra.
Qed.

Lemma detection_of_box_size_not_negative_witness :
  let d := detection_of_box float32_model float32_row in
  (Det.x1 d <= Det.x2 d)%Q /\ (Det.y1 d <= Det.y2 d)%Q /\
  match Det.width d with
  | Finite v => (0 <= v)%Q
  | Infinite negative => negative = false
  end /\
  match Det.height d with
  | Finite v => (0 <= v)%Q
  | Infinite negative => negative = false
  end.
Proof.
  assert (H1 : (6573261 # 65536 <= 6583091 # 32768)%Q) by (unfold Qle; simpl; lia).
  assert (H2 : (13290701 # 262144 <= 7877427 # 65536)%Q) by (unfold Qle; simpl; lia).
  split; [exact H1|]. split; [exact H2|].
  exact (detection_of_box_size_not_negative float32_model float32_row H1 H2).
Defined.

(** ** The renderer, continued *)

Lemma floor_div_mono a b c d :
  0 < b -> 0 < d -> a * d <= c * b -> a / b <= c / d.
Proof.
  intros Hb Hd Hle. apply Z.div_le_lower_bound; [done|].
  pose proof (Z.mul_div_le a b Hb). nia.
Qed.

(** [int] does not reverse the order of two floats. *)
Lemma py_int_mono (u v : Q) : (u <= v)%Q -> py_int u <= py_int v.
Proof.
  destruct u as [a b], v as [c d]. unfold Qle, py_int. simpl. intros Hle.
  destruct (Z_le_gt_dec 0 a) as [Ha|Ha].
  - assert (0 <= c) by nia.
    rewrite !Z.quot_div_nonneg by lia. apply floor_div_mono; lia.
  - destruct (Z_le_gt_dec 0 c) as [Hc|Hc].
    + transitivity 0.
      * apply Z.quot_le_upper_bound; lia.
      * apply Z.quot_pos; lia.
    + assert (Ea : a = - (- a)) by lia. assert (Ec : c = - (- c)) by lia.
      rewrite Ea, Ec.
      rewrite (Z.quot_opp_l (- a)), (Z.quot_opp_l (- c)) by lia.
      rewrite !Z.quot_div_nonneg by lia.
      apply -> Z.opp_le_mono. apply floor_div_mono; lia.
Qed.

(** [int] of a float that is not negative is at most the float, and less
    than one below it. *)
Lemma py_int_floor (v : Q) :
  (0 <= v)%Q -> (inject_Z (py_int v) <= v /\ v < inject_Z (py_int v) + 1)%Q.
Proof.
  destruct v as [a b]. unfold Qle, Qlt, py_int. simpl. intros Ha.
  rewrite Z.quot_div_nonneg by lia.
  pose proof (Z.div_mod a (Z.pos b) ltac:(lia)).
  pose proof (Z.mod_pos_bound a (Z.pos b) ltac:(lia)). split; nia.
Qed.

Section RendererExtras.

Context (P : platform).

(** The calls of one run of [draw_predictions], detection by detection. *)
Lemma draw_predictions_calls image (D : list detection) w a :
  heap w !! image = Some a ->
  exists annotated w',
    draw_predictions P image D w = (Ok annotated, w') /\
    annotated ≠ image /\
    trace w' = trace w ++ flat_map (detection_events P annotated) D /\
    uploads w' = uploads w /\ results w' = results w /\
    uuids w' = uuids w /\ ticks w' = ticks w.
Proof.
  intros Ha. destruct (draw_predictions_returns P image D w a Ha)
    as (l & w' & a' & Hrun & Hne & _ & _ & _ & _ & Ht & Hrest).
  by exists l, w'.
Qed.

(** X4. The box of a detection is drawn from (int(x1), int(y1)) to
    (int(x2), int(y2)), the corners truncated toward zero: when the
    corners of the detection are ordered so are the corners drawn, and a
    corner that is not negative is drawn at the pixel at or just before
    it. *)
Theorem draw_predictions_box_corners image (D : list detection) w a :
  heap w !! image = Some a ->
  exists annotated w' evs,
    draw_predictions P image D w = (Ok annotated, w') /\
    trace w' = trace w ++ evs /\
    forall i d, D !! i = Some d ->
      let px1 := py_int (Det.x1 d) in
      let py1 := py_int (Det.y1 d) in
      let px2 := py_int (Det.x2 d) in
      let py2 := py_int (Det.y2 d) in
      (exists c thickness,
         evs !! (3 * i)%nat
         = Some (EvRectangle annotated (px1, py1) (px2, py2) c thickness)) /\
      ((Det.x1 d <= Det.x2 d)%Q -> px1 <= px2) /\
      ((Det.y1 d <= Det.y2 d)%Q -> py1 <= py2) /\
      ((0 <= Det.x1 d)%Q ->
       (inject_Z px1 <= Det.x1 d /\ Det.x1 d < inject_Z px1 + 1)%Q) /\
      ((0 <= Det.y1 d)%Q ->
       (inject_Z py1 <= Det.y1 d /\ Det.y1 d < inject_Z py1 + 1)%Q) /\
      ((0 <= Det.x2 d)%Q ->
       (inject_Z px2 <= Det.x2 d /\ Det.x2 d < inject_Z px2 + 1)%Q) /\
      ((0 <= Det.y2 d)%Q ->
       (inject_Z py2 <= Det.y2 d /\ Det.y2 d < inject_Z py2 + 1)%Q).
Proof.
  intros Ha. destruct (draw_predictions_calls image D w a Ha)
    as (l & w' & Hrun & _ & Ht & _).
  exists l, w', (flat_map (detection_events P l) D).
  split; [done|]. split; [done|]. intros i d Hd px1 py1 px2 py2.
  pose proof (detection_events_at P l D i d 0 Hd ltac:(lia)) as H0.
  rewrite Nat.add_0_r in H0. rewrite H0.
  split; [by do 2 eexists|].
  split; [apply py_int_mono|]. split; [apply py_int_mono|].
  split; [apply py_int_floor|]. split; [apply py_int_floor|].
  split; apply py_int_floor.
Qed.

(** X5. The box of a detection is drawn 3 units thick when its confidence
    exceeds 0.5 and 2 units thick otherwise, 0.5 itself included. *)
Theorem draw_predictions_box_thickness image (D : list detection) w a :
  heap w !! image = Some a ->
  exists annotated w' evs,
    draw_predictions P image D w = (Ok annotated, w') /\
    trace w' = trace w ++ evs /\
    forall i d, D !! i = Some d ->
      exists pt1 pt2 c thickness,
        evs !! (3 * i)%nat = Some (EvRectangle annotated pt1 pt2 c thickness) /\
        ((0.5 < Det.confidence d)%Q -> thickness = 3) /\
        ((Det.confidence d <= 0.5)%Q -> thickness = 2).
Proof.
  intros Ha. destruct (draw_predictions_calls image D w a Ha)
    as (l & w' & Hrun & _ & Ht & _).
  exists l, w', (flat_map (detection_events P l) D).
  split; [done|]. split; [done|]. intros i d Hd.
  pose proof (detection_events_at P l D i d 0 Hd ltac:(lia)) as H0.
  rewrite Nat.add_0_r in H0. rewrite H0.
  do 4 eexists. split; [reflexivity|].
  destruct (Qle_bool (Det.confidence d) 0.5) eqn:Hb; split; intros Hc; try done.
  - apply Qle_bool_iff in Hb. by apply Qlt_not_le in Hc.
  - apply Qle_bool_iff in Hc. congruence.
Qed.

Lemma detection_events_length l (D : list detection) :
  length (flat_map (detection_events P l) D) = (3 * length D)%nat.
Proof.
  induction D as [|d D IH]; [done|].
  change (flat_map (detection_events P l) (d :: D))
    with (detection_events P l d ++ flat_map (detection_events P l) D).
  rewrite length_app, IH. simpl. lia.
Qed.

Lemma detection_events_target l (D : list detection) :
  Forall (fun ev => event_target ev = Some l)
    (flat_map (detection_events P l) D).
Proof.
  induction D as [|d D IH]; [constructor|].
  change (flat_map (detection_events P l) (d :: D))
    with (detection_events P l d ++ flat_map (detection_events P l) D).
  apply Forall_app. split; [|done]. by repeat constructor.
Qed.

(** X6. [draw_predictions] makes exactly three cv2 calls per detection,
    every one of them on the copy it returns, none on the source image;
    it stores no file and draws no identifier. *)
Theorem draw_predictions_draws_on_copy_only image (D : list detection) w a :
  heap w !! image = Some a ->
  exists annotated w' evs,
    draw_predictions P image D w = (Ok annotated, w') /\
    annotated ≠ image /\
    trace w' = trace w ++ evs /\
    length evs = (3 * length D)%nat /\
    Forall (fun ev => event_target ev = Some annotated) evs /\
    uploads w' = uploads w /\ results w' = results w /\
    uuids w' = uuids w /\ ticks w' = ticks w.
Proof.
  intros Ha. destruct (draw_predictions_calls image D w a Ha)
    as (l & w' & Hrun & Hne & Ht & Hrest).
  exists l, w', (flat_map (detection_events P l) D).
  repeat split; try done; try apply Hrest.
  - apply detection_events_length.
  - apply detection_events_target.
Qed.

End RendererExtras.

Lemma draw_predictions_box_corners_witness :
  heap studio !! 1%positive = Some stub_image /\
  (exists annotated w' evs,
     draw_predictions stub_platform 1%positive two_detections studio
     = (Ok annotated, w') /\
     trace w' = trace studio ++ evs /\
     forall i d, two_detections !! i = Some d ->
       exists c thickness,
         evs !! (3 * i)%nat
         = Some (EvRectangle annotated
                   (py_int (Det.x1 d), py_int (Det.y1 d))
                   (py_int (Det.x2 d), py_int (Det.y2 d)) c thickness)).
Proof.
  split; [reflexivity|].
  destruct (draw_predictions_box_corners stub_platform 1%positive two_detections
              studio stub_image eq_refl) as (l & w' & evs & Hrun & Ht & Hev).
  exists l, w', evs. split; [done|]. split; [done|].
  intros i d Hd. exact (proj1 (Hev i d Hd)).
Defined.

Lemma draw_predictions_box_thickness_witness :
  heap studio !! 1%positive = Some stub_image /\
  (exists annotated w',
     draw_predictions stub_platform 1%positive two_detections studio
     = (Ok annotated, w')).
Proof.
  split; [reflexivity|].
  destruct (draw_predictions_box_thickness stub_platform 1%positive two_detections
              studio stub_image eq_refl) as (l & w' & _ & Hrun & _).
  by exists l, w'.
Defined.

Lemma draw_predictions_draws_on_copy_only_witness :
  heap studio !! 1%positive = Some stub_image /\
  (exists annotated w' evs,
     draw_predictions stub_platform 1%positive two_detections studio
     = (Ok annotated, w') /\
     annotated ≠ 1%positive /\
     trace w' = trace studio ++ evs /\
     length evs = (3 * length two_detections)%nat /\
     Forall (fun ev => event_target ev = Some annotated) evs /\
     uploads w' = uploads studio /\ results w' = results studio /\
     uuids w' = uuids studio /\ ticks w' = ticks studio).
Proof.
  split; [reflexivity|].
  apply (draw_predictions_draws_on_copy_only stub_platform 1%positive
           two_detections studio stub_image).
  reflexivity.
Defined.

(** ** Statistics, continued *)

Lemma occurrences_app k (D1 D2 : list detection) :
  occurrences k (D1 ++ D2) = (occurrences k D1 + occurrences k D2)%nat.
Proof. unfold occurrences. by rewrite filter_app, length_app. Qed.

Lemma occurrences_perm k (D1 D2 : list detection) :
  D1 ≡ₚ D2 -> occurrences k D1 = occurrences k D2.
Proof. intros Hp. unfold occurrences. by rewrite Hp. Qed.

(** X7. The statistics do not depend on the order of the detections: two
    lists that are permutations of each other get the same mapping. *)
Theorem count_classes_order_irrelevant (D1 D2 : list detection) :
  D1 ≡ₚ D2 -> count_classes D1 = count_classes D2.
Proof.
  intros Hp. apply map_eq. intros k.
  by rewrite !lookup_count_classes, (occurrences_perm k D1 D2 Hp).
Qed.

Lemma count_classes_order_irrelevant_witness :
  two_detections ≡ₚ reverse two_detections /\
  count_classes two_detections = count_classes (reverse two_detections).
Proof.
  assert (Hp : two_detections ≡ₚ reverse two_detections)
    by (symmetry; apply reverse_Permutation).
  split; [exact Hp|].
  exact (count_classes_order_irrelevant two_detections (reverse two_detections) Hp).
Defined.

(** X8. The statistics are empty exactly when there is no detection, and
    the statistics of two lists put end to end are the statistics of each,
    merged by adding the counts of the labels they share. *)
Theorem count_classes_empty_and_merge :
  (forall D : list detection, count_classes D = ∅ <-> D = []) /\
  (forall D1 D2 : list detection,
     count_classes (D1 ++ D2)
     = union_with (fun n1 n2 => Some (n1 + n2))
         (count_classes D1) (count_classes D2)).
Proof.
  split.
  - intros D. split; [|by intros ->].
    destruct D as [|d D]; [done|]. intros He.
    assert (Hl : count_classes (d :: D) !! Det.class d = None)
      by (rewrite He; apply lookup_empty).
    rewrite lookup_count_classes in Hl. case_decide as Hn; [|done].
    exfalso. revert Hn. apply occurrences_pos. exists d. split; [left | done].
  - intros D1 D2. apply map_eq. intros k.
    rewrite lookup_union_with, !lookup_count_classes, occurrences_app.
    repeat case_decide; simpl; try lia; f_equal; lia.
Qed.

(** ** The label *)



(** ** The endpoint, continued *)

Section EndpointExtras.

Context (P : platform).

Local Arguments process_with_yolo : simpl never.
Local Arguments draw_predictions : simpl never.

(** What [process_image] does once the upload has been decoded, by the
    outcome of the model and of [cv2.imwrite]. *)
Lemma process_image_decoded m (file : UploadFile) fn (c : Q) w img :
  filename file = Some fn ->
  imdecode P (content file) = Some img ->
  let name := stored_name P fn w in
  let ups := <[name := content file]> (uploads w) in
  let l := fresh (dom (heap w)) in
  match predict m ups (call_args (upload_path name) c) with
  | Raise e0 =>
      exists w',
        process_image P (Some m) file c w
        = (Raise (HTTPException 500 ("Ошибка обработки: " +:+ exn_str P e0)), w') /\
        uploads w' = ups /\ results w' = results w /\
        heap w' = <[l := img]> (heap w) /\ uuids w' = S (uuids w)
  | Ok rs =>
      let D := map (detection_of_box m) (raw_rows rs) in
      exists l2 a' r w',
        process_image P (Some m) file c w = (r, w') /\
        l2 ≠ l /\ heap w !! l2 = None /\
        heap w' = <[l2 := a']> (<[l := img]> (heap w)) /\
        shape a' = shape img /\ (D = [] -> a' = img) /\
        uploads w' = ups /\ uuids w' = S (uuids w) /\
        match imencode P ("result_" +:+ name) a' with
        | Raise e =>
            results w' = results w /\
            r = Raise (HTTPException 500 ("Ошибка обработки: " +:+ exn_str P e))
        | Ok written =>
            results w'
            = match written with
              | Some b => <["result_" +:+ name := b]> (results w)
              | None => results w
              end /\
            r = Ok (Response.mk true name ("result_" +:+ name)
                      (Z.of_nat (length D)) (count_classes D) D
                      (snd (shape img)) (fst (shape img))
                      (time_at P (S (ticks w)) - time_at P (ticks w))%Q c
                      (Response.mk_model_info "YOLO Локальная модель" MODEL_PATH
                         (names_values m)))
        end
  end.
Proof.
  intros Hfn Hdec name ups l.
  unfold process_image, bind, try_except, time_time, filename_extension.
  rewrite Hfn. unfold ret, uuid4, file_read, bind, emit, write_upload, cv2_imread.
  simpl. fold (stored_name P fn w). fold name.
  rewrite lookup_insert_eq, Hdec, Hfn. unfold ndarray_shape. simpl.
  fold l. rewrite lookup_insert_eq.
  destruct (shape img) as [height width] eqn:Hshape.
  match goal with
  | |- context [process_with_yolo _ ?p ?c ?w1] =>
      change (uploads w1) with ups;
      pose proof (process_with_yolo_returns m p c w1) as Hret;
      pose proof (process_with_yolo_raises m p c w1) as Hraise;
      change (uploads w1) with ups in Hret, Hraise
  end.
  destruct (predict m ups (call_args (upload_path name) c)) as [rs|e0] eqn:Hp.
  - rewrite (Hret rs eq_refl). clear Hret Hraise. cbv beta iota.
    set (D := map (detection_of_box m) (raw_rows rs)).
    match goal with
    | |- context [draw_predictions P l D ?w1] =>
        destruct (draw_predictions_returns P l D w1 img)
          as (l2 & w2 & a2 & Hrun & Hne & Hfresh & Hh & Hs & Hnil & Ht
              & Hu & Hr & Hi & Hk);
        [ apply lookup_insert_eq | rewrite Hrun ]
    end.
    simpl in Hfresh, Hh, Hu, Hr, Hi, Hk.
    unfold cv2_imwrite. rewrite Hh, lookup_insert_eq.
    exists l2, a2.
    destruct (imencode P ("result_" +:+ name) a2) as [[b|]|e]; simpl;
      eexists _, _; (split; [reflexivity|]); simpl;
      rewrite ?Hh, ?Hu, ?Hr, ?Hi, ?Hk;
      (repeat split; try done);
      try (rewrite lookup_insert_ne in Hfresh by done; exact Hfresh);
      try congruence.
  - rewrite (Hraise e0 eq_refl). simpl. eexists. by repeat split.
Qed.







(** X13. [process_image] does not look at what [cv2.imwrite] returns: when
    it returns [False], nothing is written under RESULT_DIR and the answer
    is a success all the same, naming a result image that was not
    written. *)
Theorem process_image_ignores_imwrite_false m (file : UploadFile) fn (c : Q)
    w img rs :
  filename file = Some fn ->
  imdecode P (content file) = Some img ->
  let name := stored_name P fn w in
  predict m (<[name := content file]> (uploads w))
    (call_args (upload_path name) c) = Ok rs ->
  (forall a', imencode P ("result_" +:+ name) a' = Ok None) ->
  exists resp w',
    process_image P (Some m) file c w = (Ok resp, w') /\
    Response.success resp = true /\
    Response.result_image resp = "result_" +:+ name /\
    results w' = results w.
Proof.
  intros Hfn Hdec name Hp Henc.
  pose proof (process_image_decoded m file fn c w img Hfn Hdec) as Hd.
  cbv zeta in Hd. fold name in Hd. rewrite Hp in Hd.
  destruct Hd as (l2 & a' & r1 & w1 & Hrun1 & _ & _ & _ & _ & _ & Hu & Hi & Hw).
  rewrite (Henc a') in Hw. destruct Hw as [Hr ->].
  eexists _, w1. by split; [exact Hrun1|].
Qed.

(** X14. When the model raises on a decoded upload, [process_image]
    answers status 500 with the text of that exception after the prefix;
    the upload and the decoded image stay, and nothing is written under
    RESULT_DIR. *)
Theorem process_image_model_failure m (file : UploadFile) fn (c : Q) w img e0 :
  filename file = Some fn ->
  imdecode P (content file) = Some img ->
  let name := stored_name P fn w in
  predict m (<[name := content file]> (uploads w))
    (call_args (upload_path name) c) = Raise e0 ->
  exists w',
    process_image P (Some m) file c w
    = (Raise (HTTPException 500 ("Ошибка обработки: " +:+ exn_str P e0)), w') /\
    uploads w' = <[name := content file]> (uploads w) /\
    results w' = results w /\
    heap w' = <[fresh (dom (heap w)) := img]> (heap w).
Proof.
  intros Hfn Hdec name Hp.
  pose proof (process_image_decoded m file fn c w img Hfn Hdec) as Hd.
  cbv zeta in Hd. fold name in Hd. rewrite Hp in Hd.
  destruct Hd as (w1 & Hrun1 & Hu & Hr & Hh & _). by exists w1.
Qed.

End EndpointExtras.




Lemma process_image_ignores_imwrite_false_witness :
  filename png_upload = Some "a.png" /\
  imdecode readonly_platform (content png_upload) = Some stub_image /\
  (exists resp w',
     process_image readonly_platform (Some stub_model) png_upload 0.25%Q
       empty_world = (Ok resp, w') /\
     Response.success resp = true /\
     Response.result_image resp
     = "result_" +:+ stored_name readonly_platform "a.png" empty_world /\
     results w' = results empty_world).
Proof.
  split; [reflexivity|]. split; [reflexivity|].
  exact (process_image_ignores_imwrite_false readonly_platform stub_model
           png_upload "a.png" 0.25%Q empty_world stub_image _ eq_refl eq_refl
           eq_refl (fun a' => eq_refl)).
Defined.

Lemma process_image_model_failure_witness :
  filename png_upload = Some "a.png" /\
  imdecode stub_platform (content png_upload) = Some stub_image /\
  (exists w',
     process_image stub_platform (Some failing_model) png_upload 0.25%Q
       empty_world
     = (Raise (HTTPException 500
                 ("Ошибка обработки: " +:+
                  exn_str stub_platform (InferenceError "corrupt image"))),
        w') /\
     uploads w'
     = <[stored_name stub_platform "a.png" empty_world := content png_upload]>
         (uploads empty_world) /\
     results w' = results empty_world /\
     heap w' = <[fresh (dom (heap empty_world)) := stub_image]> (heap empty_world)).
Proof.
  split; [reflexivity|]. split; [reflexivity|].
  exact (process_image_model_failure stub_platform failing_model png_upload
           "a.png" 0.25%Q empty_world stub_image _ eq_refl eq_refl eq_refl).
Defined.

(** ** The /model_info endpoint *)

(** X15. [get_model_info] answers status 503 exactly when no model is
    loaded; otherwise it reports the model as loaded, lists exactly the
    labels of the label table, and gives as [num_classes] the number of
    entries of the table, which is the length of the list. *)
Theorem get_model_info_reports_label_table :
  get_model_info None = JSONResponse 503 "Модель не загружена" /\
  (forall m, exists info,
     get_model_info (Some m) = ModelInfoDict info /\
     ModelInfo.model_loaded info = true /\
     ModelInfo.model_path info = MODEL_PATH /\
     (forall s, s ∈ ModelInfo.classes info
                <-> exists k, names m !! k = Some s) /\
     ModelInfo.num_classes info = Z.of_nat (size (names m)) /\
     ModelInfo.num_classes info = Z.of_nat (length (ModelInfo.classes info))).
Proof.
  split; [reflexivity|]. intros m. eexists. split; [reflexivity|]. simpl.
  split; [done|]. split; [done|].
  pose proof (names_items_nodup m) as Hnd.
  assert (Hlen : length (names_values m) = size (names m)).
  { unfold names_values, names. by rewrite length_fmap, map_size_list_to_map. }
  split; [|split].
  - intros s. unfold names_values, names. rewrite list_elem_of_fmap. split.
    + intros ([k s'] & -> & Hin). exists k. by apply elem_of_list_to_map.
    + intros [k Hk]. exists (k, s). split; [done|].
      by apply elem_of_list_to_map.
  - rewrite <- Hlen. by destruct (names_values m).
  - by destruct (names_values m).
Qed.

(** ** The /test_image endpoint *)

Section TestEndpointExtras.

Context (P : platform).

Local Arguments process_with_yolo : simpl never.
Local Arguments draw_predictions : simpl never.

(** X16. [test_image_processing] has no guard of its own.  Without the
    test image it returns the error dict as an ordinary answer and touches
    nothing.  With the test image and no model it raises the ValueError of
    [process_with_yolo] as it is, after the copy has been made under
    UPLOAD_DIR, where it stays; no library call has been made. *)
Theorem test_image_processing_unguarded model contents w :
  test_image_processing P model None w
  = (Ok (TestImageError "Тестовое изображение не найдено"), w) /\
  exists w',
    test_image_processing P None (Some contents) w
    = (Raise (ValueError "Модель не загружена"), w') /\
    uploads w' = <[test_name P w := contents]> (uploads w) /\
    results w' = results w /\ heap w' = heap w /\ trace w' = trace w.
Proof.
  split; [reflexivity|].
  by exists (set_uploads (insert (test_name P w) contents) (next_uuid w)).
Qed.

(** X17. [test_image_processing] calls the model, with threshold 0.25,
    before it decodes the image: when the copy does not decode, the model
    has been called, then [draw_predictions] is given [None] and the
    AttributeError comes out; nothing is written under RESULT_DIR. *)
Theorem test_image_processing_undecodable m contents w rs :
  let name := test_name P w in
  predict m (<[name := contents]> (uploads w))
    (call_args (upload_path name) 0.25%Q) = Ok rs ->
  imdecode P contents = None ->
  exists w',
    test_image_processing P (Some m) (Some contents) w
    = (Raise (AttributeError "'NoneType' object has no attribute 'copy'"), w') /\
    trace w' = trace w ++ [EvPredict (call_args (upload_path name) 0.25%Q);
                           EvImread name] /\
    uploads w' = <[name := contents]> (uploads w) /\
    results w' = results w.
Proof.
  intros name Hp Hdec.
  unfold test_image_processing, bind, uuid4, shutil_copy2, ret.
  fold (test_name P w). fold name.
  match goal with
  | |- context [process_with_yolo _ ?p ?c ?w1] =>
      pose proof (process_with_yolo_returns m p c w1 rs Hp) as Hret
  end.
  rewrite Hret. unfold cv2_imread. simpl.
  rewrite lookup_insert_eq, Hdec. eexists. split; [reflexivity|]. simpl.
  by rewrite <- app_assoc.
Qed.


End TestEndpointExtras.

Lemma test_image_processing_undecodable_witness :
  predict stub_model (<[test_name stub_platform empty_world := [Byte.x00]]>
                        (uploads empty_world))
    (call_args (upload_path (test_name stub_platform empty_world)) 0.25%Q)
  = Ok [mk_Results (Some [mk_Box (10, 0, 50, 40)%Q 0.9%Q 7%Q;
                          mk_Box (1, 2, 4, 8)%Q 0.125%Q 0%Q])] /\
  imdecode stub_platform [Byte.x00] = None /\
  (exists w',
     test_image_processing stub_platform (Some stub_model) (Some [Byte.x00])
       empty_world
     = (Raise (AttributeError "'NoneType' object has no attribute 'copy'"), w') /\
     trace w'
     = trace empty_world
       ++ [EvPredict (call_args (upload_path (test_name stub_platform empty_world))
                        0.25%Q);
           EvImread (test_name stub_platform empty_world)] /\
     uploads w' = <[test_name stub_platform empty_world := [Byte.x00]]>
                    (uploads empty_world) /\
     results w' = results empty_world).
Proof.
  split; [reflexivity|]. split; [reflexivity|].
  exact (test_image_processing_undecodable stub_platform stub_model [Byte.x00]
           empty_world _ eq_refl eq_refl).
Defined.


(** ** Requests one after the other *)



Section SuccessiveRequests.

Context (P : platform).


(** X20. In every successful answer of [process_image] the statistics are
    those of the detections of the answer: their keys are the labels of
    these detections, their counts add up to [total_detections], and the
    name of the result image is "result_" followed by the name of the
    stored upload. *)
Theorem process_image_answer_is_consistent model (file : UploadFile) (c : Q)
    w resp w' :
  process_image P model file c w = (Ok resp, w') ->
  sum_values (Response.class_stats resp) = Response.total_detections resp /\
  (forall k, is_Some (Response.class_stats resp !! k)
             <-> exists d, d ∈ Response.detections resp /\ Det.class d = k) /\
  Response.total_detections resp
  = Z.of_nat (length (Response.detections resp)) /\
  Response.result_image resp = "result_" +:+ Response.original_image resp /\
  Response.confidence_threshold resp = c.
Proof.
  intros Hrun.
  destruct (process_image_response P model file c w resp w' Hrun)
    as (Hstats & Htotal & Hc & Hname).
  rewrite Hstats, Htotal. repeat split; try done.
  - unfold count_classes. rewrite sum_values_fold.
    unfold sum_values. rewrite map_fold_empty. lia.
  - rewrite lookup_count_classes. case_decide as Hn.
    + by intros [? ?].
    + intros _. by apply occurrences_pos.
  - intros Hex. apply occurrences_pos in Hex.
    rewrite lookup_count_classes. case_decide; [done | by eexists].
Qed.

End SuccessiveRequests.


Lemma process_image_answer_is_consistent_witness :
  let out := process_image stub_platform (Some stub_model) png_upload 0.25%Q
               empty_world in
  exists resp,
    out = (Ok resp, snd out) /\
    sum_values (Response.class_stats resp) = Response.total_detections resp.
Proof.
  intros out. eexists. split; [vm_compute; reflexivity|].
  refine (proj1 (process_image_answer_is_consistent stub_platform
                   (Some stub_model) png_upload 0.25%Q empty_world _ (snd out) _)).
  vm_compute. reflexivity.
Defined.
